(** * ExtensionViewHost: a shallow embedding of
      chrome/browser/extensions/extension_view_host.cc

    The host is a thin adapter between an extension's rendered content, a
    platform view and an optional parent browser.  The embedding keeps the
    host object as a record, threads the surrounding world (the observers
    registered with web contents, the state of the browser collaborator and
    the trace of outbound calls) through a small state-and-failure monad,
    and models a failed DCHECK or a dereference of a null [view_] as
    failure. *)

From stdpp Require Import gmap strings list fin_maps.
From Stdlib Require Import ZArith.

Local Open Scope Z_scope.

(** ** Object identities

    C++ objects the host only points to are represented by their identity;
    a pointer is an [option] of an identity, [None] being NULL. *)

Abbreviation WebContents := positive.
Abbreviation Browser := positive.
Abbreviation ObserverId := positive.

(** ** Enumerations *)

(** Modelled from the spec: the enum [ViewType] is declared in
    chrome/common/view_type.h, which is not among the sources.  The three
    enumerators the host names are kept; every other enumerator (panels,
    background pages, ...) is folded into [VIEW_TYPE_OTHER]. *)
Inductive ViewType : Type :=
| VIEW_TYPE_EXTENSION_DIALOG
| VIEW_TYPE_EXTENSION_INFOBAR
| VIEW_TYPE_EXTENSION_POPUP
| VIEW_TYPE_OTHER (tag : nat).

(** Modelled from the spec: the enum [WindowOpenDisposition] is declared in
    ui/base/window_open_disposition.h, which is not among the sources.  The
    seven enumerators of the switch in [OpenURLFromTab] are kept; whatever
    reaches its [default:] label is [DISPOSITION_OTHER]. *)
Inductive WindowOpenDisposition : Type :=
| SINGLETON_TAB
| NEW_FOREGROUND_TAB
| NEW_BACKGROUND_TAB
| NEW_POPUP
| NEW_WINDOW
| SAVE_TO_DISK
| OFF_THE_RECORD
| DISPOSITION_OTHER (tag : nat).

(** Modelled from the spec: the type of a keyboard event is the input event
    type of the rendering engine, declared outside the sources.  The host
    names [RawKeyDown] only; the other keyboard types and the remaining
    input types are kept apart from it. *)
Inductive InputEventType : Type :=
| RawKeyDown
| KeyDown
| KeyUp
| Char
| InputEventOther (tag : nat).

#[global] Instance ViewType_eq_dec : EqDecision ViewType.
Proof. solve_decision. Defined.
#[global] Instance WindowOpenDisposition_eq_dec : EqDecision WindowOpenDisposition.
Proof. solve_decision. Defined.
#[global] Instance InputEventType_eq_dec : EqDecision InputEventType.
Proof. solve_decision. Defined.

(** ui::VKEY_ESCAPE, from ui/events/keycodes/keyboard_codes.h. *)
Definition VKEY_ESCAPE : Z := 0x1B.

(** ** Arguments of the callbacks *)

Record NativeWebKeyboardEvent : Type := {
  type : InputEventType;
  windowsKeyCode : Z;
  modifiers : Z
}.

Record OpenURLParams : Type := {
  url : string;
  disposition : WindowOpenDisposition
}.

#[global] Instance NativeWebKeyboardEvent_eq_dec : EqDecision NativeWebKeyboardEvent.
Proof. solve_decision. Defined.
#[global] Instance OpenURLParams_eq_dec : EqDecision OpenURLParams.
Proof. solve_decision. Defined.

(** ** Build configuration

    The preprocessor symbols the file branches on. *)
Record BuildConfig : Type := {
  TOOLKIT_VIEWS : bool;
  OS_MACOSX : bool;
  TOOLKIT_GTK : bool
}.

(** ** The platform view

    Of ExtensionViewViews / ExtensionViewMac / ExtensionViewGtk the host
    uses the browser the view was created with; [owned_by_client] and
    [initialized] record what [CreateView] does to a fresh view. *)
Record ExtensionView : Type := {
  browser : option Browser;
  owned_by_client : bool;
  initialized : bool
}.

(** ** The host object *)
Record ExtensionViewHost : Type := {
  extension_host_type : ViewType;
  host_contents : WebContents;
  view_ : option ExtensionView;
  associated_web_contents_ : option WebContents;
  associated_web_contents_observer_ : option ObserverId
}.

(** ** Outbound calls

    What the host asks of its collaborators, in the order it asks. *)
Inductive Call : Type :=
| Call_Browser_OpenURL (b : Browser) (params : OpenURLParams)
| Call_Browser_PreHandleKeyboardEvent
    (b : Browser) (source : option WebContents) (event : NativeWebKeyboardEvent)
| Call_Browser_HandleKeyboardEvent
    (b : Browser) (source : option WebContents) (event : NativeWebKeyboardEvent)
| Call_View_HandleKeyboardEvent (event : NativeWebKeyboardEvent)
| Call_Close
| Call_RenderViewHost_InsertCSS (frame_xpath : string) (css : string).

#[global] Instance Call_eq_dec : EqDecision Call.
Proof. solve_decision. Defined.

(** ** The browser collaborator

    chrome/browser/ui/browser.h is not among the sources: what a Browser
    answers is left open, as an interface over an arbitrary browser state.
    [Browser_PreHandleKeyboardEvent] takes the value [*is_keyboard_shortcut]
    holds on entry and yields the returned flag with the value it holds on
    exit. *)
Class BrowserAPI (BS : Type) : Type := {
  Browser_OpenURL :
    Browser -> OpenURLParams -> BS -> option WebContents * BS;
  Browser_PreHandleKeyboardEvent :
    Browser -> option WebContents -> NativeWebKeyboardEvent -> bool ->
    BS -> (bool * bool) * BS;
  Browser_HandleKeyboardEvent :
    Browser -> option WebContents -> NativeWebKeyboardEvent -> BS -> BS
}.

(** ** The world around the host *)
Record World (BS : Type) : Type := {
  host : ExtensionViewHost;
  (** the AssociatedWebContentsObserver objects currently registered, each
      with the web contents it observes *)
  observers_ : gmap positive WebContents;
  browser_state : BS;
  trace : list Call
}.
Arguments host {BS} _.
Arguments observers_ {BS} _.
Arguments browser_state {BS} _.
Arguments trace {BS} _.

Section Host.

Context {BS : Type} `{!BrowserAPI BS}.

(** The build the file is compiled for, and the contents of the resource
    IDR_EXTENSIONS_INFOBAR_CSS of the shared resource bundle. *)
Variable config : BuildConfig.
Variable infobar_css : string.

(** *** Field updates *)

Definition set_host (h : ExtensionViewHost) (w : World BS) : World BS :=
  {| host := h; observers_ := observers_ w;
     browser_state := browser_state w; trace := trace w |}.

Definition set_observers (o : gmap positive WebContents) (w : World BS) : World BS :=
  {| host := host w; observers_ := o;
     browser_state := browser_state w; trace := trace w |}.

Definition set_browser_state (s : BS) (w : World BS) : World BS :=
  {| host := host w; observers_ := observers_ w;
     browser_state := s; trace := trace w |}.

Definition add_call (c : Call) (w : World BS) : World BS :=
  {| host := host w; observers_ := observers_ w;
     browser_state := browser_state w; trace := trace w ++ [c] |}.

Definition with_view (v : option ExtensionView) (h : ExtensionViewHost)
  : ExtensionViewHost :=
  {| extension_host_type := extension_host_type h;
     host_contents := host_contents h;
     view_ := v;
     associated_web_contents_ := associated_web_contents_ h;
     associated_web_contents_observer_ := associated_web_contents_observer_ h |}.

Definition with_associated_web_contents (c : option WebContents)
  (h : ExtensionViewHost) : ExtensionViewHost :=
  {| extension_host_type := extension_host_type h;
     host_contents := host_contents h;
     view_ := view_ h;
     associated_web_contents_ := c;
     associated_web_contents_observer_ := associated_web_contents_observer_ h |}.

Definition with_observer (o : option ObserverId) (h : ExtensionViewHost)
  : ExtensionViewHost :=
  {| extension_host_type := extension_host_type h;
     host_contents := host_contents h;
     view_ := view_ h;
     associated_web_contents_ := associated_web_contents_ h;
     associated_web_contents_observer_ := o |}.

(** *** The monad: state passing over the world, [None] for a fatal stop *)

Definition M (A : Type) : Type := World BS -> option (A * World BS).

Definition ret {A : Type} (a : A) : M A := fun w => Some (a, w).

Definition bind {A B : Type} (m : M A) (k : A -> M B) : M B :=
  fun w => match m w with
           | Some (a, w') => k a w'
           | None => None
           end.

Definition fatal {A : Type} : M A := fun _ => None.

Definition gets {A : Type} (f : World BS -> A) : M A := fun w => Some (f w, w).

Definition modify (f : World BS -> World BS) : M unit := fun w => Some (tt, f w).

Definition emit (c : Call) : M unit := modify (add_call c).

Notation "x <- m ;; k" := (bind m (fun x => k))
  (at level 100, m at next level, right associativity).
Notation "m ;;; k" := (bind m (fun _ => k))
  (at level 100, right associativity).

(** *** Collaborators *)

(** [view_->browser()]: stops on a null [view_]. *)
Definition view_browser : M (option Browser) :=
  fun w => match view_ (host w) with
           | Some v => Some (browser v, w)
           | None => None
           end.

Definition call_Browser_OpenURL (b : Browser) (params : OpenURLParams)
  : M (option WebContents) :=
  fun w =>
    let '(r, s) := Browser_OpenURL b params (browser_state w) in
    Some (r, add_call (Call_Browser_OpenURL b params) (set_browser_state s w)).

Definition call_Browser_PreHandleKeyboardEvent (b : Browser)
  (source : option WebContents) (event : NativeWebKeyboardEvent)
  (is_keyboard_shortcut : bool) : M (bool * bool) :=
  fun w =>
    let '(r, s) :=
      Browser_PreHandleKeyboardEvent b source event is_keyboard_shortcut
        (browser_state w) in
    Some (r, add_call (Call_Browser_PreHandleKeyboardEvent b source event)
               (set_browser_state s w)).

Definition call_Browser_HandleKeyboardEvent (b : Browser)
  (source : option WebContents) (event : NativeWebKeyboardEvent) : M unit :=
  fun w =>
    let s := Browser_HandleKeyboardEvent b source event (browser_state w) in
    Some (tt, add_call (Call_Browser_HandleKeyboardEvent b source event)
                (set_browser_state s w)).

(** ExtensionHost::Close, of the base class, seen from this file as one
    outbound call. *)
Definition Close : M unit := emit Call_Close.

(** *** Construction *)

(** The constructor: [contents] is the web contents the base class creates
    for the host; the DCHECK admits the three view-bound kinds only. *)
Definition ExtensionViewHost_new (host_type : ViewType) (contents : WebContents)
  : option ExtensionViewHost :=
  if bool_decide (host_type = VIEW_TYPE_EXTENSION_DIALOG)
     || bool_decide (host_type = VIEW_TYPE_EXTENSION_INFOBAR)
     || bool_decide (host_type = VIEW_TYPE_EXTENSION_POPUP)
  then Some {| extension_host_type := host_type;
               host_contents := contents;
               view_ := None;
               associated_web_contents_ := None;
               associated_web_contents_observer_ := None |}
  else None.

Definition new_world (h : ExtensionViewHost) (s : BS) : World BS :=
  {| host := h; observers_ := ∅; browser_state := s; trace := [] |}.

Definition view_reset (v : ExtensionView) : M unit :=
  modify (fun w => set_host (with_view (Some v) (host w)) w).

Definition CreateView (browser : option Browser) : M unit :=
  if TOOLKIT_VIEWS config then
    view_reset {| browser := browser; owned_by_client := true;
                  initialized := false |}
  else if OS_MACOSX config then
    view_reset {| browser := browser; owned_by_client := false;
                  initialized := true |}
  else if TOOLKIT_GTK config then
    view_reset {| browser := browser; owned_by_client := false;
                  initialized := true |}
  else
    (* NOTREACHED() *)
    fatal.

(** *** The associated web contents and its observer *)

(** The observer objects that exist: the registered ones and the one the
    host owns. *)
Definition live_observers (w : World BS) : gset positive :=
  dom (observers_ w) ∪
  match associated_web_contents_observer_ (host w) with
  | Some o => {[ o ]}
  | None => ∅
  end.

(** Modelled from the spec: the base class content::WebContentsObserver is
    not among the sources; observation is registered when the observer is
    made and taken back when it is deleted.
    [new AssociatedWebContentsObserver(this, web_contents)] is a fresh
    object, which the base-class constructor registers with
    [web_contents]. *)
Definition new_AssociatedWebContentsObserver (web_contents : WebContents)
  : M ObserverId :=
  fun w =>
    let o := fresh (live_observers w) in
    Some (o, set_observers (<[ o := web_contents ]> (observers_ w)) w).

(** Modelled from the spec: [delete observer], where the base-class
    destructor takes the observer off the web contents it is still
    registered with. *)
Definition delete_AssociatedWebContentsObserver (o : ObserverId) : M unit :=
  modify (fun w => set_observers (delete o (observers_ w)) w).

(** [associated_web_contents_observer_.reset(p)] of the scoped_ptr. *)
Definition associated_web_contents_observer_reset (p : option ObserverId)
  : M unit :=
  old <- gets (fun w => associated_web_contents_observer_ (host w)) ;;
  match old with
  | Some o => delete_AssociatedWebContentsObserver o
  | None => ret tt
  end ;;;
  modify (fun w => set_host (with_observer p (host w)) w).

Definition SetAssociatedWebContents (web_contents : option WebContents)
  : M unit :=
  modify (fun w =>
            set_host (with_associated_web_contents web_contents (host w)) w) ;;;
  a <- gets (fun w => associated_web_contents_ (host w)) ;;
  match a with
  | Some c =>
      (* Observe the new WebContents for deletion. *)
      o <- new_AssociatedWebContentsObserver c ;;
      associated_web_contents_observer_reset (Some o)
  | None =>
      associated_web_contents_observer_reset None
  end.

(** AssociatedWebContentsObserver::WebContentsDestroyed *)
Definition AssociatedWebContentsObserver_WebContentsDestroyed
  (web_contents : WebContents) : M unit :=
  SetAssociatedWebContents None.

(** Modelled from the spec: content::WebContentsObserver and the web
    contents that notifies it are not among the sources.  A web contents
    that goes away walks the observers registered with it; each one still
    registered is taken off the list and then told through
    [WebContentsDestroyed]. *)
Definition WebContentsImplDestroyed (c : WebContents) (o : ObserverId)
  : M unit :=
  r <- gets (fun w => observers_ w !! o) ;;
  if bool_decide (r = Some c) then
    modify (fun w => set_observers (delete o (observers_ w)) w) ;;;
    AssociatedWebContentsObserver_WebContentsDestroyed c
  else ret tt.

Fixpoint for_each_observer (c : WebContents) (l : list ObserverId) : M unit :=
  match l with
  | [] => ret tt
  | o :: l' => WebContentsImplDestroyed c o ;;; for_each_observer c l'
  end.

Definition observers_of (c : WebContents) (w : World BS) : list ObserverId :=
  (map_to_list (filter (fun kv => kv.2 = c) (observers_ w))).*1.

(** Modelled from the spec: the destruction of the web contents [c], as
    far as it reaches the host. *)
Definition DestroyWebContents (c : WebContents) : M unit :=
  l <- gets (observers_of c) ;;
  for_each_observer c l.

Definition GetAssociatedWebContents (h : ExtensionViewHost)
  : option WebContents :=
  associated_web_contents_ h.

Definition GetVisibleWebContents (h : ExtensionViewHost) : option WebContents :=
  match associated_web_contents_ h with
  | Some c => Some c
  | None =>
      if bool_decide (extension_host_type h = VIEW_TYPE_EXTENSION_POPUP)
      then Some (host_contents h)
      else None
  end.

(** *** ExtensionHost overrides *)

Definition UnhandledKeyboardEvent (source : option WebContents)
  (event : NativeWebKeyboardEvent) : M unit :=
  browser <- view_browser ;;
  match browser with
  | Some b =>
      (* Handle lower priority browser shortcuts such as Ctrl-f. *)
      call_Browser_HandleKeyboardEvent b source event
  | None =>
      if TOOLKIT_VIEWS config
      then emit (Call_View_HandleKeyboardEvent event)
      else ret tt
  end.

Definition InsertInfobarCSS : M unit :=
  emit (Call_RenderViewHost_InsertCSS "" infobar_css).

Definition OnDocumentAvailable : M unit :=
  t <- gets (fun w => extension_host_type (host w)) ;;
  if bool_decide (t = VIEW_TYPE_EXTENSION_INFOBAR)
  then InsertInfobarCSS
  else ret tt.

Definition IsBackgroundPage (h : ExtensionViewHost) : option bool :=
  match view_ h with
  | Some _ => Some false
  | None => (* DCHECK(view_) *) None
  end.

Definition OpenURLFromTab (source : option WebContents) (params : OpenURLParams)
  : M (option WebContents) :=
  (* Whitelist the dispositions we will allow to be opened. *)
  match disposition params with
  | SINGLETON_TAB
  | NEW_FOREGROUND_TAB
  | NEW_BACKGROUND_TAB
  | NEW_POPUP
  | NEW_WINDOW
  | SAVE_TO_DISK
  | OFF_THE_RECORD =>
      browser <- view_browser ;;
      match browser with
      | Some b => call_Browser_OpenURL b params
      | None => ret None
      end
  | DISPOSITION_OTHER _ => ret None
  end.

(** [is_keyboard_shortcut] is the value the out-parameter holds on entry;
    the result pairs the returned flag with the value it holds on exit. *)
Definition PreHandleKeyboardEvent (source : option WebContents)
  (event : NativeWebKeyboardEvent) (is_keyboard_shortcut : bool)
  : M (bool * bool) :=
  t <- gets (fun w => extension_host_type (host w)) ;;
  if bool_decide (t = VIEW_TYPE_EXTENSION_POPUP)
     && bool_decide (type event = RawKeyDown)
     && bool_decide (windowsKeyCode event = VKEY_ESCAPE)
  then ret (false, true)
  else
    (* Handle higher priority browser shortcuts such as Ctrl-w. *)
    browser <- view_browser ;;
    match browser with
    | Some b =>
        call_Browser_PreHandleKeyboardEvent b source event is_keyboard_shortcut
    | None => ret (false, false)
    end.

Definition HandleKeyboardEvent (source : option WebContents)
  (event : NativeWebKeyboardEvent) : M unit :=
  t <- gets (fun w => extension_host_type (host w)) ;;
  if bool_decide (t = VIEW_TYPE_EXTENSION_POPUP) then
    if bool_decide (type event = RawKeyDown)
       && bool_decide (windowsKeyCode event = VKEY_ESCAPE)
    then Close (* return *)
    else UnhandledKeyboardEvent source event
  else UnhandledKeyboardEvent source event.

End Host.

Arguments M : clear implicits.
Arguments ret {BS A} a w /.
Arguments bind {BS A B} m k w /.
Arguments fatal {BS A} w /.
Arguments gets {BS A} f w /.
Arguments modify {BS} f w /.

(** ** The host driven from outside

    The calls the content layer and the owner of the host make on it, and
    the states a host goes through under them. *)

Inductive Request : Type :=
| Req_CreateView (browser : option Browser)
| Req_SetAssociatedWebContents (web_contents : option WebContents)
| Req_DestroyWebContents (c : WebContents)
| Req_UnhandledKeyboardEvent
    (source : option WebContents) (event : NativeWebKeyboardEvent)
| Req_PreHandleKeyboardEvent
    (source : option WebContents) (event : NativeWebKeyboardEvent)
    (is_keyboard_shortcut : bool)
| Req_HandleKeyboardEvent
    (source : option WebContents) (event : NativeWebKeyboardEvent)
| Req_OnDocumentAvailable
| Req_OpenURLFromTab (source : option WebContents) (params : OpenURLParams).

Section Driver.

Context {BS : Type} `{!BrowserAPI BS}.
Variable config : BuildConfig.
Variable infobar_css : string.

Definition discard {A : Type} (m : M BS A) : M BS unit :=
  bind m (fun _ => ret tt).

Definition serve (r : Request) : M BS unit :=
  match r with
  | Req_CreateView b => CreateView config b
  | Req_SetAssociatedWebContents c => SetAssociatedWebContents c
  | Req_DestroyWebContents c => DestroyWebContents c
  | Req_UnhandledKeyboardEvent s e => UnhandledKeyboardEvent config s e
  | Req_PreHandleKeyboardEvent s e k => discard (PreHandleKeyboardEvent s e k)
  | Req_HandleKeyboardEvent s e => HandleKeyboardEvent config s e
  | Req_OnDocumentAvailable => OnDocumentAvailable infobar_css
  | Req_OpenURLFromTab s p => discard (OpenURLFromTab s p)
  end.

Inductive reachable : World BS -> Prop :=
| reachable_new (host_type : ViewType) (contents : WebContents)
    (h : ExtensionViewHost) (s : BS) :
    ExtensionViewHost_new host_type contents = Some h ->
    reachable (new_world h s)
| reachable_serve (w w' : World BS) (r : Request) :
    reachable w ->
    serve r w = Some (tt, w') ->
    reachable w'.

(** The host owns an observer exactly when it has an associated web
    contents, and that observer is the only one registered, with that web
    contents. *)
Definition observer_inv (w : World BS) : Prop :=
  match associated_web_contents_ (host w),
        associated_web_contents_observer_ (host w) with
  | Some c, Some o => observers_ w = {[ o := c ]}
  | None, None => observers_ w = ∅
  | _, _ => False
  end.

(** Two worlds agree on the association and on the registered observers. *)
Definition same_association (w w' : World BS) : Prop :=
  associated_web_contents_ (host w') = associated_web_contents_ (host w) /\
  associated_web_contents_observer_ (host w') =
    associated_web_contents_observer_ (host w) /\
  observers_ w' = observers_ w.

End Driver.

(** ** A browser to run the host against

    A browser whose state counts the calls made on it: it opens every URL in
    the web contents 40, and treats Ctrl-modified keys as its shortcuts. *)
#[global] Instance counting_browser : BrowserAPI nat := {|
  Browser_OpenURL := fun _ _ n => (Some 40%positive, S n);
  Browser_PreHandleKeyboardEvent :=
    fun _ _ e _ n =>
      let ctrl := Z.testbit (modifiers e) 1 in (ctrl, ctrl, S n);
  Browser_HandleKeyboardEvent := fun _ _ _ n => S n
|}.

Definition views_build : BuildConfig :=
  {| TOOLKIT_VIEWS := true; OS_MACOSX := false; TOOLKIT_GTK := false |}.

Definition demo_css : string := "body { margin: 0; }".

Definition escape_key_down : NativeWebKeyboardEvent :=
  {| type := RawKeyDown; windowsKeyCode := VKEY_ESCAPE; modifiers := 0 |}.

Definition escape_key_up : NativeWebKeyboardEvent :=
  {| type := KeyUp; windowsKeyCode := VKEY_ESCAPE; modifiers := 0 |}.

(** Ctrl-W: key code 0x57 with the control modifier (bit 1) set. *)
Definition ctrl_w_key_down : NativeWebKeyboardEvent :=
  {| type := RawKeyDown; windowsKeyCode := 0x57; modifiers := 2 |}.

Definition new_popup_params : OpenURLParams :=
  {| url := "http://example.org/"; disposition := NEW_POPUP |}.

Definition unlisted_params : OpenURLParams :=
  {| url := "http://example.org/"; disposition := DISPOSITION_OTHER 0 |}.

(** A host of kind [k] as [CreateView] leaves it in a views build. *)
Definition viewed_host (k : ViewType) (b : option Browser) : ExtensionViewHost :=
  {| extension_host_type := k;
     host_contents := 1%positive;
     view_ := Some {| browser := b; owned_by_client := true;
                      initialized := false |};
     associated_web_contents_ := None;
     associated_web_contents_observer_ := None |}.

Definition viewed_world (k : ViewType) (b : option Browser) : World nat :=
  new_world (viewed_host k b) 0%nat.

(** A popup bound to the browser 3, associated with the web contents 5
    through the observer 1. *)
Definition associated_world : World nat :=
  {| host :=
       {| extension_host_type := VIEW_TYPE_EXTENSION_POPUP;
          host_contents := 1%positive;
          view_ := Some {| browser := Some 3%positive; owned_by_client := true;
                           initialized := false |};
          associated_web_contents_ := Some 5%positive;
          associated_web_contents_observer_ := Some 1%positive |};
     observers_ := {[ 1%positive := 5%positive ]};
     browser_state := 0%nat;
     trace := [] |}.

(** ** Vocabulary of the specification *)

(** The dispositions the specification lists as allowed. *)
Definition allow_list : list WindowOpenDisposition :=
  [SINGLETON_TAB; NEW_FOREGROUND_TAB; NEW_BACKGROUND_TAB; NEW_POPUP;
   NEW_WINDOW; SAVE_TO_DISK; OFF_THE_RECORD].

Definition is_popup (h : ExtensionViewHost) : Prop :=
  extension_host_type h = VIEW_TYPE_EXTENSION_POPUP.

Definition escape_raw_key_down (event : NativeWebKeyboardEvent) : Prop :=
  type event = RawKeyDown /\ windowsKeyCode event = VKEY_ESCAPE.

(** The host has its view, and the view's [browser()] is [b]: a parent
    browser is bound for [Some _], none is for [None]. *)
Definition view_has_browser (h : ExtensionViewHost) (b : option Browser)
  : Prop :=
  exists v, view_ h = Some v /\ browser v = b.

(** ** The remaining notifications and accessors

    These members change nothing in the host or around it: they read the
    host and call out to the view, to the base class and to the render view
    host.  Each is given as the list of calls it makes, in order, [None]
    when it stops on a failed DCHECK or on a null [view_]. *)

Abbreviation WindowController := positive.
Abbreviation RenderViewHost := positive.

(** gfx::Size, as far as the host passes it on. *)
Record Size : Type := {
  width : Z;
  height : Z
}.

(** The one message the host sends: ExtensionMsg_UpdateBrowserWindowId. *)
Inductive ExtensionMsg : Type :=
| ExtensionMsg_UpdateBrowserWindowId (routing_id : Z) (window_id : Z).

Inductive PlatformCall : Type :=
| Call_View_DidStopLoading
| Call_View_ResizeDueToAutoResize (new_size : Size)
| Call_ExtensionHost_RenderViewCreated (render_view_host : RenderViewHost)
| Call_View_RenderViewCreated
| Call_RenderViewHost_Send (render_view_host : RenderViewHost)
    (message : ExtensionMsg).

(** What the host reads from a browser, a window controller and a render
    view host; their headers are not among the sources. *)
Class WindowAPI (BS : Type) : Type := {
  Browser_extension_window_controller :
    Browser -> BS -> option WindowController;
  WindowController_GetWindowId : WindowController -> BS -> Z;
  RenderViewHost_GetRoutingID : RenderViewHost -> Z
}.

Section Platform.

Context {BS : Type} `{!BrowserAPI BS} `{!WindowAPI BS}.
Variable config : BuildConfig.

(** [did_stop_loading] is what the accessor of the base class answers. *)
Definition OnDidStopLoading (did_stop_loading : bool) (h : ExtensionViewHost)
  : option (list PlatformCall) :=
  if did_stop_loading then
    if TOOLKIT_VIEWS config || OS_MACOSX config then
      match view_ h with
      | Some _ => Some [Call_View_DidStopLoading]
      | None => None
      end
    else Some []
  else (* DCHECK(did_stop_loading()) *) None.

Definition ResizeDueToAutoResize (source : option WebContents)
  (new_size : Size) (h : ExtensionViewHost) : option (list PlatformCall) :=
  match view_ h with
  | Some _ => Some [Call_View_ResizeDueToAutoResize new_size]
  | None => None
  end.

(** The outer [option] is the null [view_]; the inner one is the pointer
    returned. *)
Definition GetExtensionWindowController (h : ExtensionViewHost) (s : BS)
  : option (option WindowController) :=
  match view_ h with
  | Some v =>
      Some match browser v with
           | Some b => Browser_extension_window_controller b s
           | None => None
           end
  | None => None
  end.

Definition RenderViewCreated (render_view_host : RenderViewHost)
  (h : ExtensionViewHost) (s : BS) : option (list PlatformCall) :=
  match view_ h with
  | Some _ =>
      match GetExtensionWindowController h s with
      | Some (Some window) =>
          (* If the host is bound to a window, then extract its id. *)
          Some [Call_ExtensionHost_RenderViewCreated render_view_host;
                Call_View_RenderViewCreated;
                Call_RenderViewHost_Send render_view_host
                  (ExtensionMsg_UpdateBrowserWindowId
                     (RenderViewHost_GetRoutingID render_view_host)
                     (WindowController_GetWindowId window s))]
      | Some None =>
          Some [Call_ExtensionHost_RenderViewCreated render_view_host;
                Call_View_RenderViewCreated]
      | None => None
      end
  | None => None
  end.

(** The destructor: its body is empty, and the members are destroyed after
    it, each scoped_ptr deleting what it owns. *)
Definition ExtensionViewHost_delete : M BS unit :=
  bind (associated_web_contents_observer_reset None)
    (fun _ => modify (fun w => set_host (with_view None (host w)) w)).

End Platform.

(** A window source to run the host against: the browser [b] has the window
    controller [b + 100], whose window id is its own number. *)
#[global] Instance numbered_windows : WindowAPI nat := {|
  Browser_extension_window_controller := fun b _ => Some (b + 100)%positive;
  WindowController_GetWindowId := fun c _ => Z.pos c;
  RenderViewHost_GetRoutingID := fun r => Z.pos r
|}.

(** ** Vocabulary of the further properties *)

(** The calls made between the world [w] and the later world [w']. *)
Definition new_calls {BS : Type} (w w' : World BS) : list Call :=
  drop (length (trace w)) (trace w').

Definition is_browser_call (c : Call) : bool :=
  match c with
  | Call_Browser_OpenURL _ _
  | Call_Browser_PreHandleKeyboardEvent _ _ _
  | Call_Browser_HandleKeyboardEvent _ _ _ => true
  | _ => false
  end.

Definition is_InsertCSS (c : Call) : bool :=
  match c with
  | Call_RenderViewHost_InsertCSS _ _ => true
  | _ => false
  end.

Definition has_toolkit (config : BuildConfig) : bool :=
  TOOLKIT_VIEWS config || OS_MACOSX config || TOOLKIT_GTK config.

(** The requests that reach the association or the view. *)
Definition is_structural (r : Request) : bool :=
  match r with
  | Req_CreateView _
  | Req_SetAssociatedWebContents _
  | Req_DestroyWebContents _ => true
  | _ => false
  end.

(** * Properties *)

Section Properties.

Context {BS : Type} `{!BrowserAPI BS}.
Variable config : BuildConfig.
Variable infobar_css : string.

Implicit Types (w : World BS) (h : ExtensionViewHost).
Implicit Types (c x : WebContents) (o : ObserverId).

(** ** What [SetAssociatedWebContents] does to the world *)

Lemma SetAssociatedWebContents_None_run w :
  exists w',
    SetAssociatedWebContents None w = Some (tt, w') /\
    host w' = with_observer None (with_associated_web_contents None (host w)) /\
    observers_ w' =
      match associated_web_contents_observer_ (host w) with
      | Some old => delete old (observers_ w)
      | None => observers_ w
      end /\
    browser_state w' = browser_state w /\
    trace w' = trace w.
Proof.
  unfold SetAssociatedWebContents, associated_web_contents_observer_reset.
  simpl. destruct (associated_web_contents_observer_ (host w)) as [old|];
    simpl; eexists; (split; [reflexivity|]); simpl; auto.
Qed.

Lemma SetAssociatedWebContents_Some_run w c :
  exists w',
    SetAssociatedWebContents (Some c) w = Some (tt, w') /\
    host w' =
      with_observer (Some (fresh (live_observers w)))
        (with_associated_web_contents (Some c) (host w)) /\
    observers_ w' =
      match associated_web_contents_observer_ (host w) with
      | Some old => delete old (<[ fresh (live_observers w) := c ]> (observers_ w))
      | None => <[ fresh (live_observers w) := c ]> (observers_ w)
      end /\
    browser_state w' = browser_state w /\
    trace w' = trace w.
Proof.
  unfold SetAssociatedWebContents, associated_web_contents_observer_reset.
  simpl.
  change (live_observers
            (set_host (with_associated_web_contents (Some c) (host w)) w))
    with (live_observers w).
  destruct (associated_web_contents_observer_ (host w)) as [old|];
    simpl; eexists; (split; [reflexivity|]); simpl; auto.
Qed.

Lemma fresh_observer_not_registered w :
  observers_ w !! fresh (live_observers w) = None.
Proof.
  apply not_elem_of_dom. intros Hin.
  apply (is_fresh (live_observers w)). unfold live_observers.
  apply elem_of_union_l, Hin.
Qed.

Lemma fresh_observer_not_owned w old :
  associated_web_contents_observer_ (host w) = Some old ->
  fresh (live_observers w) <> old.
Proof.
  intros Hold Heq. pose proof (is_fresh (live_observers w)) as Hf.
  rewrite Heq in Hf. apply Hf. unfold live_observers. rewrite Hold.
  apply elem_of_union_r, elem_of_singleton. reflexivity.
Qed.

(** ** The observer invariant *)

Lemma observer_inv_new host_type contents h (s : BS) :
  ExtensionViewHost_new host_type contents = Some h ->
  observer_inv (new_world h s).
Proof.
  unfold ExtensionViewHost_new. intros Hnew.
  destruct (_ || _); [|discriminate].
  injection Hnew as <-. reflexivity.
Qed.

Lemma observer_inv_SetAssociatedWebContents w w' web_contents :
  observer_inv w ->
  SetAssociatedWebContents web_contents w = Some (tt, w') ->
  observer_inv w'.
Proof.
  unfold observer_inv. intros Hinv Hrun.
  destruct web_contents as [c|].
  - destruct (SetAssociatedWebContents_Some_run w c)
      as (w1 & Hrun1 & Hh & Hobs & _ & _).
    rewrite Hrun1 in Hrun. injection Hrun as <-.
    rewrite Hh, Hobs. simpl.
    pose proof (fresh_observer_not_owned w) as Hne.
    destruct (associated_web_contents_ (host w)) as [x|],
             (associated_web_contents_observer_ (host w)) as [old|];
      try contradiction; rewrite Hinv.
    + specialize (Hne old eq_refl).
      rewrite delete_insert_ne by congruence.
      rewrite delete_singleton_eq. apply insert_empty.
    + apply insert_empty.
  - destruct (SetAssociatedWebContents_None_run w)
      as (w1 & Hrun1 & Hh & Hobs & _ & _).
    rewrite Hrun1 in Hrun. injection Hrun as <-.
    rewrite Hh, Hobs. simpl.
    destruct (associated_web_contents_ (host w)) as [x|],
             (associated_web_contents_observer_ (host w)) as [old|];
      try contradiction; rewrite Hinv.
    + apply delete_singleton_eq.
    + reflexivity.
Qed.

Lemma observers_of_registered w c o x :
  observers_ w = {[ o := x ]} ->
  observers_of c w = if decide (x = c) then [o] else [].
Proof.
  intros Hobs. unfold observers_of. rewrite Hobs, map_filter_singleton.
  simpl. destruct (decide (x = c)).
  - rewrite map_to_list_singleton. reflexivity.
  - rewrite map_to_list_empty. reflexivity.
Qed.

Lemma observers_of_none w c :
  observers_ w = ∅ -> observers_of c w = [].
Proof.
  intros Hobs. unfold observers_of.
  rewrite Hobs, map_filter_empty, map_to_list_empty. reflexivity.
Qed.

(** Destroying the associated web contents: the observer is told and the
    host lets go of both. *)
Lemma DestroyWebContents_associated w x :
  observer_inv w ->
  associated_web_contents_ (host w) = Some x ->
  exists w',
    DestroyWebContents x w = Some (tt, w') /\
    host w' = with_observer None (with_associated_web_contents None (host w)) /\
    observers_ w' = ∅ /\
    browser_state w' = browser_state w /\
    trace w' = trace w.
Proof.
  unfold observer_inv. intros Hinv Hassoc. rewrite Hassoc in Hinv.
  destruct (associated_web_contents_observer_ (host w)) as [o|] eqn:Hobs;
    [|contradiction].
  unfold DestroyWebContents. simpl.
  rewrite (observers_of_registered w x o x Hinv).
  rewrite decide_True by reflexivity. simpl.
  unfold WebContentsImplDestroyed. simpl.
  rewrite Hinv, lookup_singleton_eq.
  rewrite bool_decide_eq_true_2 by reflexivity. simpl.
  unfold AssociatedWebContentsObserver_WebContentsDestroyed.
  destruct (SetAssociatedWebContents_None_run
              (set_observers (delete o (observers_ w)) w))
    as (w1 & -> & Hh & Ho & Hb & Ht).
  exists w1. simpl in *. rewrite Hobs in Ho.
  repeat split; auto.
  rewrite Ho, Hinv, delete_singleton_eq. apply delete_empty.
Qed.

(** Destroying any other web contents leaves the world as it is. *)
Lemma DestroyWebContents_other w c :
  observer_inv w ->
  associated_web_contents_ (host w) <> Some c ->
  DestroyWebContents c w = Some (tt, w).
Proof.
  unfold observer_inv. intros Hinv Hassoc.
  unfold DestroyWebContents. simpl.
  destruct (associated_web_contents_ (host w)) as [x|],
           (associated_web_contents_observer_ (host w)) as [o|];
    try contradiction.
  - rewrite (observers_of_registered w c o x Hinv).
    rewrite decide_False by congruence. reflexivity.
  - rewrite (observers_of_none w c Hinv). reflexivity.
Qed.

Lemma observer_inv_DestroyWebContents w w' c :
  observer_inv w ->
  DestroyWebContents c w = Some (tt, w') ->
  observer_inv w'.
Proof.
  intros Hinv Hrun.
  destruct (decide (associated_web_contents_ (host w) = Some c)) as [Heq|Hne].
  - destruct (DestroyWebContents_associated w c Hinv Heq)
      as (w1 & Hrun1 & Hh & Ho & _ & _).
    rewrite Hrun1 in Hrun. injection Hrun as <-.
    unfold observer_inv. rewrite Hh, Ho. reflexivity.
  - rewrite (DestroyWebContents_other w c Hinv Hne) in Hrun.
    injection Hrun as <-. exact Hinv.
Qed.

(** The other operations leave the association and the registered
    observers alone. *)
Lemma observer_inv_same_association w w' :
  same_association w w' -> observer_inv w -> observer_inv w'.
Proof.
  unfold same_association, observer_inv. intros (-> & -> & ->). auto.
Qed.

Ltac run_frame :=
  repeat match goal with
    | |- context [match ?x with _ => _ end] => destruct x eqn:?; simpl in *
    | H : context [match ?x with _ => _ end] |- _ => destruct x eqn:?; simpl in *
    | H : Some _ = Some _ |- _ => injection H as ?; subst; simpl in *
    | H : None = Some _ |- _ => discriminate H
    end;
  try (repeat split; reflexivity).

Lemma CreateView_same_association w w' b :
  CreateView config b w = Some (tt, w') -> same_association w w'.
Proof.
  unfold CreateView, view_reset, same_association. intros Hrun.
  destruct (TOOLKIT_VIEWS config), (OS_MACOSX config), (TOOLKIT_GTK config);
    simpl in Hrun; run_frame.
Qed.

Lemma UnhandledKeyboardEvent_same_association w w' source event :
  UnhandledKeyboardEvent config source event w = Some (tt, w') ->
  same_association w w'.
Proof.
  unfold UnhandledKeyboardEvent, view_browser, emit,
    call_Browser_HandleKeyboardEvent, same_association.
  simpl. intros Hrun. run_frame.
Qed.

Lemma PreHandleKeyboardEvent_same_association w w' source event k r :
  PreHandleKeyboardEvent source event k w = Some (r, w') ->
  same_association w w'.
Proof.
  unfold PreHandleKeyboardEvent, view_browser,
    call_Browser_PreHandleKeyboardEvent, same_association.
  simpl. intros Hrun. run_frame.
Qed.

Lemma HandleKeyboardEvent_same_association w w' source event :
  HandleKeyboardEvent config source event w = Some (tt, w') ->
  same_association w w'.
Proof.
  unfold HandleKeyboardEvent. simpl. intros Hrun.
  destruct (bool_decide _); [destruct (_ && _)|].
  - unfold Close, emit in Hrun. simpl in Hrun. injection Hrun as <-.
    repeat split; reflexivity.
  - eapply UnhandledKeyboardEvent_same_association, Hrun.
  - eapply UnhandledKeyboardEvent_same_association, Hrun.
Qed.

Lemma OnDocumentAvailable_same_association w w' :
  OnDocumentAvailable infobar_css w = Some (tt, w') -> same_association w w'.
Proof.
  unfold OnDocumentAvailable, InsertInfobarCSS, emit, same_association.
  simpl. intros Hrun. run_frame.
Qed.

Lemma OpenURLFromTab_same_association w w' source params r :
  OpenURLFromTab source params w = Some (r, w') -> same_association w w'.
Proof.
  unfold OpenURLFromTab, view_browser, call_Browser_OpenURL, same_association.
  intros Hrun. destruct (disposition params); simpl in Hrun; run_frame.
Qed.

Lemma discard_inv {A : Type} (m : M BS A) w w' :
  discard m w = Some (tt, w') -> exists a, m w = Some (a, w').
Proof.
  unfold discard. simpl. destruct (m w) as [[a w1]|]; [|discriminate].
  intros [= <-]. eauto.
Qed.

Lemma observer_inv_serve w w' r :
  observer_inv w -> serve config infobar_css r w = Some (tt, w') ->
  observer_inv w'.
Proof.
  intros Hinv Hrun. destruct r; simpl in Hrun.
  - eapply observer_inv_same_association;
      [eapply CreateView_same_association, Hrun | exact Hinv].
  - eapply observer_inv_SetAssociatedWebContents; eauto.
  - eapply observer_inv_DestroyWebContents; eauto.
  - eapply observer_inv_same_association;
      [eapply UnhandledKeyboardEvent_same_association, Hrun | exact Hinv].
  - apply discard_inv in Hrun as [a Hrun].
    eapply observer_inv_same_association;
      [eapply PreHandleKeyboardEvent_same_association, Hrun | exact Hinv].
  - eapply observer_inv_same_association;
      [eapply HandleKeyboardEvent_same_association, Hrun | exact Hinv].
  - eapply observer_inv_same_association;
      [eapply OnDocumentAvailable_same_association, Hrun | exact Hinv].
  - apply discard_inv in Hrun as [a Hrun].
    eapply observer_inv_same_association;
      [eapply OpenURLFromTab_same_association, Hrun | exact Hinv].
Qed.

(** Every state a host goes through satisfies the observer invariant. *)
Lemma reachable_observer_inv w :
  reachable config infobar_css w -> observer_inv w.
Proof.
  induction 1 as [host_type contents h s Hnew | w w' r _ IH Hrun].
  - eapply observer_inv_new, Hnew.
  - eapply observer_inv_serve; eauto.
Qed.

(** What [UnhandledKeyboardEvent] adds to the trace is never a close. *)
Lemma UnhandledKeyboardEvent_trace w w' source event :
  UnhandledKeyboardEvent config source event w = Some (tt, w') ->
  host w' = host w /\
  exists l, trace w' = trace w ++ l /\ Call_Close ∉ l.
Proof.
  unfold UnhandledKeyboardEvent, view_browser, emit,
    call_Browser_HandleKeyboardEvent.
  simpl. intros Hrun.
  destruct (view_ (host w)) as [v|]; [|discriminate]. simpl in Hrun.
  destruct (browser v) as [b|]; [|destruct (TOOLKIT_VIEWS config)];
    simpl in Hrun; injection Hrun as <-; simpl; (split; [reflexivity|]).
  - eexists [_]. split; [reflexivity|].
    intros Hc%list_elem_of_In. simpl in Hc. intuition discriminate.
  - eexists [_]. split; [reflexivity|].
    intros Hc%list_elem_of_In. simpl in Hc. intuition discriminate.
  - exists []. split; [symmetry; apply app_nil_r|].
    intros Hc%list_elem_of_In. exact Hc.
Qed.

Lemma not_popup_escape_cond h event :
  ~ (is_popup h /\ escape_raw_key_down event) ->
  bool_decide (extension_host_type h = VIEW_TYPE_EXTENSION_POPUP)
  && (bool_decide (type event = RawKeyDown)
      && bool_decide (windowsKeyCode event = VKEY_ESCAPE)) = false.
Proof.
  unfold is_popup, escape_raw_key_down. intros Hnot.
  apply not_true_is_false. intros Hc.
  apply andb_prop in Hc as [H1 H2]. apply andb_prop in H2 as [H2 H3].
  apply bool_decide_eq_true_1 in H1, H2, H3. auto.
Qed.

Lemma popup_escape_cond h event :
  is_popup h -> escape_raw_key_down event ->
  bool_decide (extension_host_type h = VIEW_TYPE_EXTENSION_POPUP)
  && (bool_decide (type event = RawKeyDown)
      && bool_decide (windowsKeyCode event = VKEY_ESCAPE)) = true.
Proof.
  unfold is_popup, escape_raw_key_down. intros Hp [Ht Hk].
  rewrite !bool_decide_eq_true_2 by assumption. reflexivity.
Qed.

(** The nested tests of [HandleKeyboardEvent] amount to one conjunction. *)
Lemma HandleKeyboardEvent_cond w source event :
  HandleKeyboardEvent config source event w =
    if bool_decide (extension_host_type (host w) = VIEW_TYPE_EXTENSION_POPUP)
       && (bool_decide (type event = RawKeyDown)
           && bool_decide (windowsKeyCode event = VKEY_ESCAPE))
    then Close w
    else UnhandledKeyboardEvent config source event w.
Proof.
  unfold HandleKeyboardEvent. simpl.
  destruct (bool_decide (extension_host_type (host w) = _)); simpl;
    [destruct (_ && _)|]; reflexivity.
Qed.

(** ** Navigation *)

(** C1: whatever the state of the host, and so whether or not a parent
    browser is bound, [OpenURLFromTab] with a disposition outside the
    allow-list returns NULL; nothing is asked of anyone. *)
Theorem OpenURLFromTab_rejects_unlisted w source params :
  disposition params ∉ allow_list ->
  OpenURLFromTab source params w = Some (None, w).
Proof.
  intros Hout. unfold OpenURLFromTab.
  destruct (disposition params);
    try (exfalso; apply Hout, list_elem_of_In; simpl; tauto).
  reflexivity.
Qed.

(** C2: with a disposition of the allow-list, [OpenURLFromTab] returns NULL
    and asks nothing when the view has no browser; when the view has a
    browser it calls that browser's OpenURL with the same parameters, once,
    and returns what the browser returns. *)
Theorem OpenURLFromTab_allow_listed w source params :
  disposition params ∈ allow_list ->
  (view_has_browser (host w) None ->
   OpenURLFromTab source params w = Some (None, w)) /\
  (forall b, view_has_browser (host w) (Some b) ->
     let r := Browser_OpenURL b params (browser_state w) in
     OpenURLFromTab source params w =
       Some (fst r, add_call (Call_Browser_OpenURL b params)
                      (set_browser_state (snd r) w))).
Proof.
  intros Hin.
  assert (Hrun : OpenURLFromTab source params w =
                 bind view_browser
                   (fun browser =>
                      match browser with
                      | Some b => call_Browser_OpenURL b params
                      | None => ret None
                      end) w).
  { apply list_elem_of_In in Hin. unfold OpenURLFromTab.
    destruct (disposition params); try reflexivity.
    simpl in Hin. intuition discriminate. }
  rewrite Hrun. unfold view_browser, call_Browser_OpenURL. simpl.
  split.
  - intros (v & -> & ->). reflexivity.
  - intros b (v & -> & ->). simpl.
    destruct (Browser_OpenURL b params (browser_state w)). reflexivity.
Qed.

(** ** Keyboard events *)

(** The two steps off the popup's Escape branch. *)
Lemma PreHandleKeyboardEvent_path w source event is_keyboard_shortcut :
  ~ (is_popup (host w) /\ escape_raw_key_down event) ->
  (forall b, view_has_browser (host w) (Some b) ->
     let r := Browser_PreHandleKeyboardEvent b source event
                is_keyboard_shortcut (browser_state w) in
     PreHandleKeyboardEvent source event is_keyboard_shortcut w =
       Some (fst r, add_call (Call_Browser_PreHandleKeyboardEvent b source event)
                      (set_browser_state (snd r) w))) /\
  (view_has_browser (host w) None ->
   PreHandleKeyboardEvent source event is_keyboard_shortcut w =
     Some ((false, false), w)).
Proof.
  intros Hnot. unfold PreHandleKeyboardEvent. simpl.
  rewrite <- andb_assoc, (not_popup_escape_cond _ _ Hnot).
  unfold view_browser, call_Browser_PreHandleKeyboardEvent. simpl. split.
  - intros b (v & -> & ->). simpl.
    destruct (Browser_PreHandleKeyboardEvent _ _ _ _ _). reflexivity.
  - intros (v & -> & ->). reflexivity.
Qed.

Lemma HandleKeyboardEvent_path w source event :
  ~ (is_popup (host w) /\ escape_raw_key_down event) ->
  HandleKeyboardEvent config source event w =
    UnhandledKeyboardEvent config source event w.
Proof.
  intros Hnot.
  rewrite HandleKeyboardEvent_cond, (not_popup_escape_cond _ _ Hnot).
  reflexivity.
Qed.

(** C3: [PreHandleKeyboardEvent] dispatches three ways.  On a popup host an
    Escape raw key-down sets [*is_keyboard_shortcut] to true and returns
    false, the world untouched (so no browser is asked).  On any other
    host or event, a view with a browser passes the event to that browser's
    pre-handler, once, and returns what it returns and leaves in
    [*is_keyboard_shortcut]; a view without a browser sets
    [*is_keyboard_shortcut] to false and returns false. *)
Theorem PreHandleKeyboardEvent_dispatch w source event is_keyboard_shortcut :
  (is_popup (host w) /\ escape_raw_key_down event ->
   PreHandleKeyboardEvent source event is_keyboard_shortcut w =
     Some ((false, true), w)) /\
  (~ (is_popup (host w) /\ escape_raw_key_down event) ->
   (forall b, view_has_browser (host w) (Some b) ->
      let r := Browser_PreHandleKeyboardEvent b source event
                 is_keyboard_shortcut (browser_state w) in
      PreHandleKeyboardEvent source event is_keyboard_shortcut w =
        Some (fst r, add_call (Call_Browser_PreHandleKeyboardEvent b source event)
                       (set_browser_state (snd r) w))) /\
   (view_has_browser (host w) None ->
    PreHandleKeyboardEvent source event is_keyboard_shortcut w =
      Some ((false, false), w))).
Proof.
  split.
  - intros [Hp He]. unfold PreHandleKeyboardEvent. simpl.
    rewrite <- andb_assoc, (popup_escape_cond _ _ Hp He). reflexivity.
  - apply PreHandleKeyboardEvent_path.
Qed.

(** C4: on a popup host, [HandleKeyboardEvent] answers an Escape raw
    key-down by closing the host and nothing else; in every other case (a
    host that is not a popup, or an event that is not an Escape raw
    key-down) it does exactly what [UnhandledKeyboardEvent] does. *)
Theorem HandleKeyboardEvent_dispatch w source event :
  (is_popup (host w) /\ escape_raw_key_down event ->
   HandleKeyboardEvent config source event w =
     Some (tt, add_call Call_Close w)) /\
  (~ (is_popup (host w) /\ escape_raw_key_down event) ->
   HandleKeyboardEvent config source event w =
     UnhandledKeyboardEvent config source event w).
Proof.
  split.
  - intros [Hp He].
    rewrite HandleKeyboardEvent_cond, (popup_escape_cond _ _ Hp He).
    reflexivity.
  - apply HandleKeyboardEvent_path.
Qed.

(** C10: on a popup host, an Escape event that is not a raw key-down is
    not the close shortcut.  [PreHandleKeyboardEvent] takes the ordinary
    path: the view's browser decides when there is one, and without one the
    event is reported as no shortcut and not consumed.
    [HandleKeyboardEvent] does what [UnhandledKeyboardEvent] does, and what
    this adds to the trace is not a close. *)
Theorem escape_other_than_raw_key_down w source event is_keyboard_shortcut :
  is_popup (host w) ->
  windowsKeyCode event = VKEY_ESCAPE ->
  type event <> RawKeyDown ->
  ((forall b, view_has_browser (host w) (Some b) ->
      let r := Browser_PreHandleKeyboardEvent b source event
                 is_keyboard_shortcut (browser_state w) in
      PreHandleKeyboardEvent source event is_keyboard_shortcut w =
        Some (fst r, add_call (Call_Browser_PreHandleKeyboardEvent b source event)
                       (set_browser_state (snd r) w))) /\
   (view_has_browser (host w) None ->
    PreHandleKeyboardEvent source event is_keyboard_shortcut w =
      Some ((false, false), w))) /\
  HandleKeyboardEvent config source event w =
    UnhandledKeyboardEvent config source event w /\
  (forall w', HandleKeyboardEvent config source event w = Some (tt, w') ->
     host w' = host w /\
     exists l, trace w' = trace w ++ l /\ Call_Close ∉ l).
Proof.
  intros Hp Hk Ht.
  assert (Hnot : ~ (is_popup (host w) /\ escape_raw_key_down event)).
  { intros [_ [Hraw _]]. contradiction. }
  pose proof (PreHandleKeyboardEvent_path w source event is_keyboard_shortcut
                Hnot) as Hpre.
  pose proof (HandleKeyboardEvent_path w source event Hnot) as Hhandle.
  split; [exact Hpre|]. split; [exact Hhandle|].
  intros w' Hrun. rewrite Hhandle in Hrun.
  eapply UnhandledKeyboardEvent_trace, Hrun.
Qed.

(** ** The associated web contents *)

(** C5: in every state a host goes through, destroying the web contents
    that is currently associated clears the reference, so that
    [GetAssociatedWebContents] returns NULL afterwards; and once the
    reference has been set to NULL no observer is registered any more, so
    that destroying any web contents afterwards, the formerly associated
    one included, changes nothing. *)
Theorem associated_web_contents_is_weak w x :
  reachable config infobar_css w ->
  (GetAssociatedWebContents (host w) = Some x ->
   exists w',
     DestroyWebContents x w = Some (tt, w') /\
     GetAssociatedWebContents (host w') = None) /\
  (exists w1,
     SetAssociatedWebContents None w = Some (tt, w1) /\
     GetAssociatedWebContents (host w1) = None /\
     observers_ w1 = ∅ /\
     DestroyWebContents x w1 = Some (tt, w1)).
Proof.
  intros Hreach. pose proof (reachable_observer_inv w Hreach) as Hinv.
  split.
  - intros Hassoc.
    destruct (DestroyWebContents_associated w x Hinv Hassoc)
      as (w' & Hrun & Hh & _).
    exists w'. split; [exact Hrun|]. rewrite Hh. reflexivity.
  - destruct (SetAssociatedWebContents_None_run w)
      as (w1 & Hrun & Hh & Ho & _).
    pose proof (observer_inv_SetAssociatedWebContents w w1 None Hinv Hrun)
      as Hinv1.
    assert (Hnone : associated_web_contents_ (host w1) = None)
      by (rewrite Hh; reflexivity).
    exists w1. repeat split; auto.
    + unfold observer_inv in Hinv1. rewrite Hnone in Hinv1.
      destruct (associated_web_contents_observer_ (host w1));
        [contradiction | exact Hinv1].
    + apply DestroyWebContents_other; [exact Hinv1|].
      rewrite Hnone. discriminate.
Qed.

(** C9: [SetAssociatedWebContents], called in any state a host goes
    through, stores its argument; for NULL the host ends up without an
    observer and none is registered; for a web contents the host ends up
    with one observer, which did not exist before, and it is the only one
    registered and observes that web contents; the observer the host owned
    before is a different one and is registered no more. *)
Theorem SetAssociatedWebContents_observer w web_contents :
  reachable config infobar_css w ->
  exists w',
    SetAssociatedWebContents web_contents w = Some (tt, w') /\
    GetAssociatedWebContents (host w') = web_contents /\
    (is_Some (associated_web_contents_observer_ (host w')) <->
     is_Some (associated_web_contents_ (host w'))) /\
    match web_contents with
    | Some c =>
        exists o,
          associated_web_contents_observer_ (host w') = Some o /\
          observers_ w' = {[ o := c ]} /\
          o ∉ live_observers w
    | None =>
        associated_web_contents_observer_ (host w') = None /\
        observers_ w' = ∅
    end /\
    (forall old,
       associated_web_contents_observer_ (host w) = Some old ->
       associated_web_contents_observer_ (host w') <> Some old /\
       observers_ w' !! old = None).
Proof.
  intros Hreach. pose proof (reachable_observer_inv w Hreach) as Hinv.
  destruct web_contents as [c|].
  - destruct (SetAssociatedWebContents_Some_run w c)
      as (w' & Hrun & Hh & Ho & _).
    pose proof (observer_inv_SetAssociatedWebContents w w' _ Hinv Hrun)
      as Hinv'.
    unfold observer_inv in Hinv'. rewrite Hh in Hinv'. simpl in Hinv'.
    exists w'. split; [exact Hrun|]. rewrite Hh. simpl.
    split; [reflexivity|]. split; [split; eauto|].
    split.
    + eexists. repeat split; [exact Hinv' | apply is_fresh].
    + intros old Hold.
      pose proof (fresh_observer_not_owned w old Hold) as Hne.
      split; [congruence|].
      rewrite Hinv'. apply lookup_singleton_ne. exact Hne.
  - destruct (SetAssociatedWebContents_None_run w)
      as (w' & Hrun & Hh & Ho & _).
    pose proof (observer_inv_SetAssociatedWebContents w w' _ Hinv Hrun)
      as Hinv'.
    unfold observer_inv in Hinv'. rewrite Hh in Hinv'. simpl in Hinv'.
    exists w'. split; [exact Hrun|]. rewrite Hh. simpl.
    split; [reflexivity|].
    split; [split; intros [? ?]; discriminate|].
    split; [split; [reflexivity | exact Hinv']|].
    intros old Hold. split; [discriminate|].
    rewrite Hinv'. apply lookup_empty.
Qed.

(** C6: [GetVisibleWebContents] returns the associated web contents
    whenever there is one, whatever the kind of the host; without one it
    returns the host's own contents exactly when the host is a popup, and
    NULL for a dialog and for an infobar. *)
Theorem GetVisibleWebContents_spec h :
  (forall c, GetAssociatedWebContents h = Some c ->
     GetVisibleWebContents h = Some c) /\
  (GetAssociatedWebContents h = None ->
   (GetVisibleWebContents h = Some (host_contents h) <-> is_popup h) /\
   (extension_host_type h = VIEW_TYPE_EXTENSION_DIALOG \/
    extension_host_type h = VIEW_TYPE_EXTENSION_INFOBAR ->
    GetVisibleWebContents h = None)).
Proof.
  unfold GetAssociatedWebContents, GetVisibleWebContents, is_popup.
  split.
  - intros c ->. reflexivity.
  - intros ->. split.
    + case_bool_decide as Hp; split; intros Hv;
        [exact Hp | reflexivity | discriminate Hv | contradiction].
    + intros [Hk|Hk]; rewrite Hk; reflexivity.
Qed.

(** ** Lifecycle notifications *)

(** C7: on an infobar host one [OnDocumentAvailable] inserts the infobar
    stylesheet into the page, once: the trace grows by this one call and
    nothing else changes.  On a host of any other kind it does nothing. *)
Theorem OnDocumentAvailable_spec w :
  (extension_host_type (host w) = VIEW_TYPE_EXTENSION_INFOBAR ->
   OnDocumentAvailable infobar_css w =
     Some (tt, add_call (Call_RenderViewHost_InsertCSS "" infobar_css) w)) /\
  (extension_host_type (host w) <> VIEW_TYPE_EXTENSION_INFOBAR ->
   OnDocumentAvailable infobar_css w = Some (tt, w)).
Proof.
  unfold OnDocumentAvailable, InsertInfobarCSS, emit. simpl. split.
  - intros ->. reflexivity.
  - intros Hk. rewrite bool_decide_eq_false_2 by exact Hk. reflexivity.
Qed.

(** C8: [IsBackgroundPage] returns false on every host that has its view,
    whatever its kind and state; a host without a view fails the DCHECK,
    and nothing else can stop the operation. *)
Theorem IsBackgroundPage_false h :
  (forall v, view_ h = Some v -> IsBackgroundPage h = Some false) /\
  (view_ h = None -> IsBackgroundPage h = None).
Proof.
  unfold IsBackgroundPage. split.
  - intros v ->. reflexivity.
  - intros ->. reflexivity.
Qed.

End Properties.

(** * The properties at work

    Each property run on a concrete host against [counting_browser]. *)

Lemma associated_world_reachable :
  reachable views_build demo_css associated_world.
Proof.
  apply (reachable_serve views_build demo_css
           (viewed_world VIEW_TYPE_EXTENSION_POPUP (Some 3%positive))
           associated_world
           (Req_SetAssociatedWebContents (Some 5%positive))).
  - apply (reachable_serve views_build demo_css
             (new_world
                {| extension_host_type := VIEW_TYPE_EXTENSION_POPUP;
                   host_contents := 1%positive;
                   view_ := None;
                   associated_web_contents_ := None;
                   associated_web_contents_observer_ := None |} 0%nat)
             (viewed_world VIEW_TYPE_EXTENSION_POPUP (Some 3%positive))
             (Req_CreateView (Some 3%positive))).
    + apply (reachable_new views_build demo_css
               VIEW_TYPE_EXTENSION_POPUP 1%positive).
      reflexivity.
    + reflexivity.
  - vm_compute. reflexivity.
Defined.

Lemma OpenURLFromTab_rejects_unlisted_witness :
  (disposition unlisted_params ∉ allow_list) /\
  OpenURLFromTab None unlisted_params
    (viewed_world VIEW_TYPE_EXTENSION_POPUP (Some 3%positive)) =
    Some (None, viewed_world VIEW_TYPE_EXTENSION_POPUP (Some 3%positive)).
Proof.
  assert (Hout : disposition unlisted_params ∉ allow_list).
  { intros Hin%list_elem_of_In. simpl in Hin. intuition discriminate. }
  split; [exact Hout|].
  apply (OpenURLFromTab_rejects_unlisted
           (viewed_world VIEW_TYPE_EXTENSION_POPUP (Some 3%positive))
           None unlisted_params Hout).
Defined.

Lemma OpenURLFromTab_allow_listed_witness :
  (disposition new_popup_params ∈ allow_list) /\
  OpenURLFromTab None new_popup_params
    (viewed_world VIEW_TYPE_EXTENSION_DIALOG None) =
    Some (None, viewed_world VIEW_TYPE_EXTENSION_DIALOG None) /\
  OpenURLFromTab None new_popup_params
    (viewed_world VIEW_TYPE_EXTENSION_POPUP (Some 3%positive)) =
    Some (Some 40%positive,
          add_call (Call_Browser_OpenURL 3%positive new_popup_params)
            (set_browser_state 1%nat
               (viewed_world VIEW_TYPE_EXTENSION_POPUP (Some 3%positive)))).
Proof.
  assert (Hin : disposition new_popup_params ∈ allow_list).
  { apply list_elem_of_In. simpl. tauto. }
  split; [exact Hin|]. split.
  - exact (proj1 (OpenURLFromTab_allow_listed
                    (viewed_world VIEW_TYPE_EXTENSION_DIALOG None)
                    None new_popup_params Hin)
             (ex_intro _ _ (conj eq_refl eq_refl))).
  - exact (proj2 (OpenURLFromTab_allow_listed
                    (viewed_world VIEW_TYPE_EXTENSION_POPUP (Some 3%positive))
                    None new_popup_params Hin) 3%positive
             (ex_intro _ _ (conj eq_refl eq_refl))).
Defined.

Lemma PreHandleKeyboardEvent_dispatch_witness :
  PreHandleKeyboardEvent None escape_key_down false
    (viewed_world VIEW_TYPE_EXTENSION_POPUP (Some 3%positive)) =
    Some ((false, true),
          viewed_world VIEW_TYPE_EXTENSION_POPUP (Some 3%positive)) /\
  PreHandleKeyboardEvent None ctrl_w_key_down false
    (viewed_world VIEW_TYPE_EXTENSION_POPUP (Some 3%positive)) =
    Some ((true, true),
          add_call
            (Call_Browser_PreHandleKeyboardEvent 3%positive None ctrl_w_key_down)
            (set_browser_state 1%nat
               (viewed_world VIEW_TYPE_EXTENSION_POPUP (Some 3%positive)))) /\
  PreHandleKeyboardEvent None escape_key_down true
    (viewed_world VIEW_TYPE_EXTENSION_DIALOG None) =
    Some ((false, false), viewed_world VIEW_TYPE_EXTENSION_DIALOG None).
Proof.
  split; [|split].
  - exact (proj1 (PreHandleKeyboardEvent_dispatch
                    (viewed_world VIEW_TYPE_EXTENSION_POPUP (Some 3%positive))
                    None escape_key_down false)
             (conj eq_refl (conj eq_refl eq_refl))).
  - refine (proj1 (proj2 (PreHandleKeyboardEvent_dispatch
                    (viewed_world VIEW_TYPE_EXTENSION_POPUP (Some 3%positive))
                    None ctrl_w_key_down false) _) 3%positive
              (ex_intro _ _ (conj eq_refl eq_refl))).
    intros [_ [_ Hk]]. discriminate Hk.
  - refine (proj2 (proj2 (PreHandleKeyboardEvent_dispatch
                    (viewed_world VIEW_TYPE_EXTENSION_DIALOG None)
                    None escape_key_down true) _)
              (ex_intro _ _ (conj eq_refl eq_refl))).
    intros [Hp _]. discriminate Hp.
Defined.

Lemma HandleKeyboardEvent_dispatch_witness :
  HandleKeyboardEvent views_build None escape_key_down
    (viewed_world VIEW_TYPE_EXTENSION_POPUP (Some 3%positive)) =
    Some (tt, add_call Call_Close
                (viewed_world VIEW_TYPE_EXTENSION_POPUP (Some 3%positive))) /\
  HandleKeyboardEvent views_build None escape_key_down
    (viewed_world VIEW_TYPE_EXTENSION_DIALOG None) =
    Some (tt, add_call (Call_View_HandleKeyboardEvent escape_key_down)
                (viewed_world VIEW_TYPE_EXTENSION_DIALOG None)).
Proof.
  split.
  - exact (proj1 (HandleKeyboardEvent_dispatch views_build
                    (viewed_world VIEW_TYPE_EXTENSION_POPUP (Some 3%positive))
                    None escape_key_down)
             (conj eq_refl (conj eq_refl eq_refl))).
  - refine (eq_trans
              (proj2 (HandleKeyboardEvent_dispatch views_build
                        (viewed_world VIEW_TYPE_EXTENSION_DIALOG None)
                        None escape_key_down) _)
              eq_refl).
    intros [Hp _]. discriminate Hp.
Defined.

Lemma escape_other_than_raw_key_down_witness :
  PreHandleKeyboardEvent None escape_key_up false
    (viewed_world VIEW_TYPE_EXTENSION_POPUP None) =
    Some ((false, false), viewed_world VIEW_TYPE_EXTENSION_POPUP None) /\
  HandleKeyboardEvent views_build None escape_key_up
    (viewed_world VIEW_TYPE_EXTENSION_POPUP None) =
    UnhandledKeyboardEvent views_build None escape_key_up
      (viewed_world VIEW_TYPE_EXTENSION_POPUP None).
Proof.
  assert (Hup : type escape_key_up <> RawKeyDown) by discriminate.
  pose proof (escape_other_than_raw_key_down views_build
                (viewed_world VIEW_TYPE_EXTENSION_POPUP None)
                None escape_key_up false eq_refl eq_refl Hup)
    as [[_ Hpre] [Hhandle _]].
  split; [|exact Hhandle].
  exact (Hpre (ex_intro _ _ (conj eq_refl eq_refl))).
Defined.

Lemma associated_web_contents_is_weak_witness :
  reachable views_build demo_css associated_world /\
  (exists w',
     DestroyWebContents 5%positive associated_world = Some (tt, w') /\
     GetAssociatedWebContents (host w') = None) /\
  (exists w1,
     SetAssociatedWebContents None associated_world = Some (tt, w1) /\
     GetAssociatedWebContents (host w1) = None /\
     observers_ w1 = ∅ /\
     DestroyWebContents 5%positive w1 = Some (tt, w1)).
Proof.
  split; [exact associated_world_reachable|].
  pose proof (associated_web_contents_is_weak views_build demo_css
                associated_world 5%positive associated_world_reachable)
    as [Hdestroy Hclear].
  split; [exact (Hdestroy eq_refl) | exact Hclear].
Defined.

Lemma SetAssociatedWebContents_observer_witness :
  reachable views_build demo_css associated_world /\
  exists w',
    SetAssociatedWebContents (Some 7%positive) associated_world =
      Some (tt, w') /\
    GetAssociatedWebContents (host w') = Some 7%positive /\
    (exists o,
       associated_web_contents_observer_ (host w') = Some o /\
       observers_ w' = {[ o := 7%positive ]} /\
       o ∉ live_observers associated_world) /\
    observers_ w' !! 1%positive = None.
Proof.
  split; [exact associated_world_reachable|].
  destruct (SetAssociatedWebContents_observer views_build demo_css
              associated_world (Some 7%positive) associated_world_reachable)
    as (w' & Hrun & Hget & _ & Hnew & Hold).
  exists w'. repeat split; try assumption.
  exact (proj2 (Hold 1%positive eq_refl)).
Defined.

Lemma GetVisibleWebContents_spec_witness :
  GetVisibleWebContents (host associated_world) = Some 5%positive /\
  GetVisibleWebContents (viewed_host VIEW_TYPE_EXTENSION_POPUP None) =
    Some 1%positive /\
  GetVisibleWebContents (viewed_host VIEW_TYPE_EXTENSION_INFOBAR None) = None.
Proof.
  split; [|split].
  - exact (proj1 (GetVisibleWebContents_spec (host associated_world))
             5%positive eq_refl).
  - exact (proj2 (proj1 (proj2 (GetVisibleWebContents_spec
                                  (viewed_host VIEW_TYPE_EXTENSION_POPUP None))
                           eq_refl))
             eq_refl).
  - exact (proj2 (proj2 (GetVisibleWebContents_spec
                           (viewed_host VIEW_TYPE_EXTENSION_INFOBAR None))
                    eq_refl)
             (or_intror eq_refl)).
Defined.

Lemma OnDocumentAvailable_spec_witness :
  OnDocumentAvailable demo_css
    (viewed_world VIEW_TYPE_EXTENSION_INFOBAR None) =
    Some (tt, add_call (Call_RenderViewHost_InsertCSS "" demo_css)
                (viewed_world VIEW_TYPE_EXTENSION_INFOBAR None)) /\
  OnDocumentAvailable demo_css
    (viewed_world VIEW_TYPE_EXTENSION_POPUP None) =
    Some (tt, viewed_world VIEW_TYPE_EXTENSION_POPUP None).
Proof.
  split.
  - exact (proj1 (OnDocumentAvailable_spec demo_css
                    (viewed_world VIEW_TYPE_EXTENSION_INFOBAR None))
             eq_refl).
  - refine (proj2 (OnDocumentAvailable_spec demo_css
                     (viewed_world VIEW_TYPE_EXTENSION_POPUP None)) _).
    discriminate.
Defined.

Lemma IsBackgroundPage_false_witness :
  IsBackgroundPage (viewed_host VIEW_TYPE_EXTENSION_DIALOG None) = Some false.
Proof.
  exact (proj1 (IsBackgroundPage_false
                  (viewed_host VIEW_TYPE_EXTENSION_DIALOG None))
           _ eq_refl).
Defined.

(** * Further properties

    What the code shows beyond the dispatch rules: how the host is built,
    what its requests can and cannot do to it, and what the remaining
    notifications call. *)

Section Further.

Context {BS : Type} `{!BrowserAPI BS} `{!WindowAPI BS}.
Variable config : BuildConfig.
Variable infobar_css : string.

Implicit Types (w : World BS) (h : ExtensionViewHost) (r : Request).

Ltac crunch :=
  repeat match goal with
    | H : context [match ?x with _ => _ end] |- _ =>
        destruct x eqn:?; simpl in H
    | H : Some _ = Some _ |- _ => injection H as ?; subst; simpl in *
    | H : None = Some _ |- _ => discriminate H
    | H : Some _ = None |- _ => discriminate H
    | H : (_, _) = (_, _) |- _ => injection H as ?; subst; simpl in *
    end.

Ltac plain_request Hr Hrun r :=
  destruct r; try discriminate Hr; simpl in Hrun;
  unfold discard, HandleKeyboardEvent in Hrun;
  unfold UnhandledKeyboardEvent, PreHandleKeyboardEvent,
    OnDocumentAvailable, InsertInfobarCSS,
    OpenURLFromTab, Close, view_browser, emit,
    call_Browser_HandleKeyboardEvent, call_Browser_PreHandleKeyboardEvent,
    call_Browser_OpenURL in Hrun;
  simpl in Hrun; crunch.

(** What one request that is not structural can do: the host and the
    observers stay, and either nothing happens at all or exactly one call
    is made, of one of four sorts. *)
Lemma serve_plain_inv r w w' :
  is_structural r = false ->
  serve config infobar_css r w = Some (tt, w') ->
  host w' = host w /\ observers_ w' = observers_ w /\
  (w' = w \/
   (trace w' = trace w ++ [Call_Close] /\
    browser_state w' = browser_state w /\
    exists source event,
      r = Req_HandleKeyboardEvent source event /\
      is_popup (host w) /\ escape_raw_key_down event) \/
   (exists event,
      trace w' = trace w ++ [Call_View_HandleKeyboardEvent event] /\
      browser_state w' = browser_state w /\
      view_has_browser (host w) None) \/
   (trace w' = trace w ++ [Call_RenderViewHost_InsertCSS "" infobar_css] /\
    browser_state w' = browser_state w /\
    r = Req_OnDocumentAvailable /\
    extension_host_type (host w) = VIEW_TYPE_EXTENSION_INFOBAR) \/
   (exists b c,
      trace w' = trace w ++ [c] /\ is_browser_call c = true /\
      view_has_browser (host w) (Some b))).
Proof.
  intros Hr Hrun. plain_request Hr Hrun r.
  all: split; [reflexivity|]; split; [reflexivity|].
  all: repeat match goal with
         | H : _ && _ = true |- _ => apply andb_prop in H as [? ?]
         | H : bool_decide _ = true |- _ => apply bool_decide_eq_true_1 in H
         end.
  all: try (left; reflexivity).
  all: try (right; right; right; right; eexists _, _;
            split; [reflexivity|]; split; [reflexivity|];
            eexists; split; eassumption).
  all: try (right; right; left; eexists;
            split; [reflexivity|]; split; [reflexivity|];
            eexists; split; eassumption).
  all: try (right; left; split; [reflexivity|]; split; [reflexivity|];
            eexists _, _; split; [reflexivity|];
            split; [assumption | split; assumption]).
  all: try (right; right; right; left; repeat split; assumption).
Qed.

(** What a structural request does: no call is made and the browser is
    left alone; only [CreateView] touches the view, and it touches nothing
    else. *)
Lemma serve_structural_inv r w w' :
  observer_inv w ->
  is_structural r = true ->
  serve config infobar_css r w = Some (tt, w') ->
  trace w' = trace w /\ browser_state w' = browser_state w /\
  extension_host_type (host w') = extension_host_type (host w) /\
  host_contents (host w') = host_contents (host w) /\
  match r with
  | Req_CreateView b =>
      view_has_browser (host w') b /\ has_toolkit config = true /\
      same_association w w'
  | _ => view_ (host w') = view_ (host w)
  end.
Proof.
  intros Hinv Hr Hrun. destruct r; try discriminate Hr; simpl in Hrun.
  - unfold CreateView, view_reset, has_toolkit in *.
    destruct (TOOLKIT_VIEWS config), (OS_MACOSX config), (TOOLKIT_GTK config);
      simpl in Hrun; try discriminate Hrun; injection Hrun as <-; simpl;
      repeat split; try reflexivity; eexists; split; reflexivity.
  - destruct web_contents as [c|].
    + destruct (SetAssociatedWebContents_Some_run w c)
        as (w1 & Hrun1 & Hh & _ & Hb & Ht).
      rewrite Hrun1 in Hrun. injection Hrun as <-. rewrite Hh. auto.
    + destruct (SetAssociatedWebContents_None_run w)
        as (w1 & Hrun1 & Hh & _ & Hb & Ht).
      rewrite Hrun1 in Hrun. injection Hrun as <-. rewrite Hh. auto.
  - destruct (decide (associated_web_contents_ (host w) = Some c)) as [Heq|Hne].
    + destruct (DestroyWebContents_associated w c Hinv Heq)
        as (w1 & Hrun1 & Hh & _ & Hb & Ht).
      rewrite Hrun1 in Hrun. injection Hrun as <-. rewrite Hh. auto.
    + rewrite (DestroyWebContents_other w c Hinv Hne) in Hrun.
      injection Hrun as <-. auto.
Qed.

Lemma new_calls_app w w' l :
  trace w' = trace w ++ l -> new_calls w w' = l.
Proof. unfold new_calls. intros ->. apply drop_app_length. Qed.

Lemma new_calls_same w w' :
  trace w' = trace w -> new_calls w w' = [].
Proof. unfold new_calls. intros ->. apply drop_all. Qed.

(** ** Construction *)

(** X1: the constructor goes through for a dialog, an infobar and a popup
    and for no other kind; the host it makes has that kind and those
    contents, no view yet, and nothing associated. *)
Theorem ExtensionViewHost_new_kinds host_type contents :
  (is_Some (ExtensionViewHost_new host_type contents) <->
   host_type = VIEW_TYPE_EXTENSION_DIALOG \/
   host_type = VIEW_TYPE_EXTENSION_INFOBAR \/
   host_type = VIEW_TYPE_EXTENSION_POPUP) /\
  (forall h, ExtensionViewHost_new host_type contents = Some h ->
     extension_host_type h = host_type /\
     host_contents h = contents /\
     view_ h = None /\
     GetAssociatedWebContents h = None /\
     associated_web_contents_observer_ h = None).
Proof.
  unfold ExtensionViewHost_new. split.
  - split.
    + intros [h Hh]. destruct host_type; auto; discriminate Hh.
    + intros [-> | [-> | ->]]; eexists; reflexivity.
  - intros h Hh. destruct (_ || _); [|discriminate Hh].
    injection Hh as <-. repeat split.
Qed.

(** X2: [CreateView] stops in a build without any of the three toolkits.
    In every other build it goes through from any state: the host then has
    a view whose browser is the argument (a view it had before is
    replaced), so [IsBackgroundPage] answers false; the kind, the
    association, the browser and the trace are as before. *)
Theorem CreateView_binds_browser w (b : option Browser) :
  (has_toolkit config = false -> CreateView config b w = None) /\
  (has_toolkit config = true ->
   exists w',
     CreateView config b w = Some (tt, w') /\
     view_has_browser (host w') b /\
     IsBackgroundPage (host w') = Some false /\
     extension_host_type (host w') = extension_host_type (host w) /\
     same_association w w' /\
     trace w' = trace w /\ browser_state w' = browser_state w).
Proof.
  unfold CreateView, view_reset, has_toolkit.
  destruct (TOOLKIT_VIEWS config), (OS_MACOSX config), (TOOLKIT_GTK config);
    simpl; split; intros Ht; try discriminate Ht; try reflexivity;
    eexists; (split; [reflexivity|]); simpl;
    (split; [eexists; split; reflexivity|]); repeat split.
Qed.

(** ** What holds in every state a host goes through *)

Lemma serve_host_fixed r w w' :
  observer_inv w ->
  serve config infobar_css r w = Some (tt, w') ->
  extension_host_type (host w') = extension_host_type (host w) /\
  host_contents (host w') = host_contents (host w).
Proof.
  intros Hinv Hrun. destruct (is_structural r) eqn:Hr.
  - destruct (serve_structural_inv r w w' Hinv Hr Hrun) as (_ & _ & Hk & Hc & _).
    auto.
  - destruct (serve_plain_inv r w w' Hr Hrun) as (-> & _). auto.
Qed.

Lemma serve_view r w w' :
  observer_inv w ->
  serve config infobar_css r w = Some (tt, w') ->
  (exists b, r = Req_CreateView b /\ view_has_browser (host w') b /\
             has_toolkit config = true) \/
  ((forall b, r <> Req_CreateView b) /\ view_ (host w') = view_ (host w)).
Proof.
  intros Hinv Hrun. destruct (is_structural r) eqn:Hr.
  - pose proof (serve_structural_inv r w w' Hinv Hr Hrun)
      as (_ & _ & _ & _ & Hv).
    destruct r; try discriminate Hr.
    + left. exists browser0. destruct Hv as (Hv & Ht & _). auto.
    + right. split; [discriminate | exact Hv].
    + right. split; [discriminate | exact Hv].
  - destruct (serve_plain_inv r w w' Hr Hrun) as (-> & _).
    right. split; [|reflexivity].
    intros b ->. discriminate Hr.
Qed.

Lemma reachable_kind_and_toolkit w :
  reachable config infobar_css w ->
  (extension_host_type (host w) = VIEW_TYPE_EXTENSION_DIALOG \/
   extension_host_type (host w) = VIEW_TYPE_EXTENSION_INFOBAR \/
   extension_host_type (host w) = VIEW_TYPE_EXTENSION_POPUP) /\
  (is_Some (view_ (host w)) -> has_toolkit config = true).
Proof.
  induction 1 as [host_type contents h s Hnew | w w' r Hreach [IHk IHv] Hrun].
  - unfold ExtensionViewHost_new in Hnew.
    destruct host_type; try discriminate Hnew; injection Hnew as <-; simpl;
      (split; [auto | intros [? ?]; discriminate]).
  - pose proof (reachable_observer_inv config infobar_css w Hreach) as Hinv.
    destruct (serve_host_fixed r w w' Hinv Hrun) as [-> _].
    split; [exact IHk|].
    destruct (serve_view r w w' Hinv Hrun) as [(b & _ & _ & Ht) | [_ ->]];
      auto.
Qed.

(** X3: the kind of a host is one of dialog, infobar and popup in every
    state it goes through, and no request changes the kind or the host's
    own contents. *)
Theorem reachable_host_kind w :
  reachable config infobar_css w ->
  (extension_host_type (host w) = VIEW_TYPE_EXTENSION_DIALOG \/
   extension_host_type (host w) = VIEW_TYPE_EXTENSION_INFOBAR \/
   extension_host_type (host w) = VIEW_TYPE_EXTENSION_POPUP) /\
  (forall r w',
     serve config infobar_css r w = Some (tt, w') ->
     extension_host_type (host w') = extension_host_type (host w) /\
     host_contents (host w') = host_contents (host w)).
Proof.
  intros Hreach. split.
  - apply (reachable_kind_and_toolkit w Hreach).
  - intros r w'. apply serve_host_fixed.
    apply (reachable_observer_inv config infobar_css w Hreach).
Qed.

(** X4: only [CreateView] changes the view.  A view, once made, is never
    taken away again by a request, so a host that answers
    [IsBackgroundPage] with false keeps doing so. *)
Theorem view_persists w r w' :
  reachable config infobar_css w ->
  serve config infobar_css r w = Some (tt, w') ->
  ((forall b, r <> Req_CreateView b) -> view_ (host w') = view_ (host w)) /\
  (IsBackgroundPage (host w) = Some false ->
   IsBackgroundPage (host w') = Some false).
Proof.
  intros Hreach Hrun.
  pose proof (reachable_observer_inv config infobar_css w Hreach) as Hinv.
  unfold IsBackgroundPage.
  destruct (serve_view r w w' Hinv Hrun)
    as [(b & -> & (v & -> & _) & _) | [Hr ->]].
  - split; [|reflexivity]. intros Hne. destruct (Hne b eq_refl).
  - split; auto.
Qed.

(** X5: once its view exists, a host is stopped by no request: each of
    them goes through. *)
Theorem viewed_host_never_stops w r :
  reachable config infobar_css w ->
  is_Some (view_ (host w)) ->
  exists w', serve config infobar_css r w = Some (tt, w').
Proof.
  intros Hreach [v Hv].
  pose proof (reachable_observer_inv config infobar_css w Hreach) as Hinv.
  destruct (reachable_kind_and_toolkit w Hreach) as [_ Ht].
  specialize (Ht (ex_intro _ v Hv)).
  destruct (serve config infobar_css r w) as [[[] w']|] eqn:Hrun; [eauto|].
  exfalso. destruct r; simpl in Hrun.
  - unfold CreateView, view_reset, has_toolkit in *.
    destruct (TOOLKIT_VIEWS config), (OS_MACOSX config), (TOOLKIT_GTK config);
      discriminate.
  - destruct web_contents as [c|].
    + destruct (SetAssociatedWebContents_Some_run w c) as (w' & Hrun' & _).
      congruence.
    + destruct (SetAssociatedWebContents_None_run w) as (w' & Hrun' & _).
      congruence.
  - destruct (decide (associated_web_contents_ (host w) = Some c)) as [Heq|Hne].
    + destruct (DestroyWebContents_associated w c Hinv Heq) as (w' & Hrun' & _).
      congruence.
    + rewrite (DestroyWebContents_other w c Hinv Hne) in Hrun. discriminate.
  - unfold UnhandledKeyboardEvent, view_browser, emit,
      call_Browser_HandleKeyboardEvent in Hrun.
    simpl in Hrun. crunch; congruence.
  - unfold discard, PreHandleKeyboardEvent, view_browser,
      call_Browser_PreHandleKeyboardEvent in Hrun.
    simpl in Hrun. crunch; congruence.
  - unfold HandleKeyboardEvent in Hrun.
    unfold UnhandledKeyboardEvent, Close, view_browser,
      emit, call_Browser_HandleKeyboardEvent in Hrun.
    simpl in Hrun. crunch; congruence.
  - unfold OnDocumentAvailable, InsertInfobarCSS, emit in Hrun.
    simpl in Hrun. crunch.
  - unfold discard, OpenURLFromTab, view_browser, call_Browser_OpenURL in Hrun.
    destruct (disposition params); simpl in Hrun; crunch; congruence.
Qed.

(** ** Observers *)

(** X6: in every state a host goes through, the observers registered are
    exactly the one the host owns, observing the associated web contents:
    none is left behind, and there is never more than one. *)
Theorem reachable_observers w :
  reachable config infobar_css w ->
  (forall o c,
     observers_ w !! o = Some c <->
     associated_web_contents_observer_ (host w) = Some o /\
     GetAssociatedWebContents (host w) = Some c) /\
  (size (observers_ w) <= 1)%nat.
Proof.
  intros Hreach.
  pose proof (reachable_observer_inv config infobar_css w Hreach) as Hinv.
  unfold observer_inv, GetAssociatedWebContents in *.
  destruct (associated_web_contents_ (host w)) as [x|],
           (associated_web_contents_observer_ (host w)) as [p|];
    try contradiction; rewrite Hinv; split.
  - intros o c. rewrite lookup_singleton_Some.
    split; [intros [-> ->]; auto | intros [[= ->] [= ->]]; auto].
  - rewrite map_size_singleton. lia.
  - intros o c. rewrite lookup_empty.
    split; [discriminate | intros [? ?]; discriminate].
  - rewrite map_size_empty. lia.
Qed.

(** X7: [SetAssociatedWebContents(NULL)] twice is the same as once, from
    any state. *)
Theorem SetAssociatedWebContents_None_idempotent w :
  bind (SetAssociatedWebContents None)
    (fun _ => SetAssociatedWebContents None) w =
  SetAssociatedWebContents None w.
Proof.
  unfold SetAssociatedWebContents, associated_web_contents_observer_reset.
  simpl. destruct (associated_web_contents_observer_ (host w)); reflexivity.
Qed.

(** X8: the last association wins.  After associating [a] and then [b],
    from any state a host goes through, [b] is the associated web contents
    and its observer the only one registered; when [a] is another web
    contents than [b], destroying [a] then changes nothing. *)
Theorem SetAssociatedWebContents_last_wins w (a b : WebContents) :
  reachable config infobar_css w ->
  exists w2,
    bind (SetAssociatedWebContents (Some a))
      (fun _ => SetAssociatedWebContents (Some b)) w = Some (tt, w2) /\
    GetAssociatedWebContents (host w2) = Some b /\
    (exists o, observers_ w2 = {[ o := b ]}) /\
    (a <> b -> DestroyWebContents a w2 = Some (tt, w2)).
Proof.
  intros Hreach.
  pose proof (reachable_observer_inv config infobar_css w Hreach) as Hinv.
  destruct (SetAssociatedWebContents_Some_run w a) as (w1 & Hrun1 & _).
  pose proof (observer_inv_SetAssociatedWebContents w w1 _ Hinv Hrun1)
    as Hinv1.
  destruct (SetAssociatedWebContents_Some_run w1 b)
    as (w2 & Hrun2 & Hh2 & _).
  pose proof (observer_inv_SetAssociatedWebContents w1 w2 _ Hinv1 Hrun2)
    as Hinv2.
  exists w2. simpl. rewrite Hrun1. split; [exact Hrun2|].
  assert (Hassoc : associated_web_contents_ (host w2) = Some b)
    by (rewrite Hh2; reflexivity).
  split; [exact Hassoc|]. split.
  - unfold observer_inv in Hinv2. rewrite Hassoc in Hinv2.
    destruct (associated_web_contents_observer_ (host w2)) as [o|];
      [eauto | contradiction].
  - intros Hne. apply DestroyWebContents_other; [exact Hinv2|].
    rewrite Hassoc. congruence.
Qed.

(** X9: destroying a web contents never stops the host and makes no call.
    Afterwards the host does not hold that web contents as its associated
    one.  If it was the associated one, the visible web contents falls
    back to the host's own for a popup and to NULL otherwise; if it was
    not, nothing changes at all. *)
Theorem DestroyWebContents_effect w (x : WebContents) :
  reachable config infobar_css w ->
  exists w',
    DestroyWebContents x w = Some (tt, w') /\
    GetAssociatedWebContents (host w') <> Some x /\
    trace w' = trace w /\ browser_state w' = browser_state w /\
    view_ (host w') = view_ (host w) /\
    (GetAssociatedWebContents (host w) = Some x ->
     GetVisibleWebContents (host w') =
       if bool_decide (extension_host_type (host w) =
                       VIEW_TYPE_EXTENSION_POPUP)
       then Some (host_contents (host w)) else None) /\
    (GetAssociatedWebContents (host w) <> Some x -> w' = w).
Proof.
  intros Hreach.
  pose proof (reachable_observer_inv config infobar_css w Hreach) as Hinv.
  unfold GetAssociatedWebContents.
  destruct (decide (associated_web_contents_ (host w) = Some x)) as [Heq|Hne].
  - destruct (DestroyWebContents_associated w x Hinv Heq)
      as (w' & Hrun & Hh & _ & Hb & Ht).
    exists w'. rewrite Hh. simpl.
    repeat split; auto; try discriminate. contradiction.
  - exists w. rewrite (DestroyWebContents_other w x Hinv Hne).
    repeat split; auto. contradiction.
Qed.

(** ** Keyboard events and navigation *)

(** X10: [UnhandledKeyboardEvent] stops on a host without a view.  With a
    view whose browser is bound it passes the event to that browser's
    HandleKeyboardEvent, once.  With a view without a browser it passes the
    event to the view in a views build and drops it in any other build. *)
Theorem UnhandledKeyboardEvent_dispatch w source event :
  (view_ (host w) = None ->
   UnhandledKeyboardEvent config source event w = None) /\
  (forall b, view_has_browser (host w) (Some b) ->
     UnhandledKeyboardEvent config source event w =
       Some (tt, add_call (Call_Browser_HandleKeyboardEvent b source event)
                   (set_browser_state
                      (Browser_HandleKeyboardEvent b source event
                         (browser_state w)) w))) /\
  (view_has_browser (host w) None ->
   UnhandledKeyboardEvent config source event w =
     Some (tt, if TOOLKIT_VIEWS config
               then add_call (Call_View_HandleKeyboardEvent event) w
               else w)).
Proof.
  unfold UnhandledKeyboardEvent, view_browser, emit,
    call_Browser_HandleKeyboardEvent. simpl.
  split; [|split].
  - intros ->. reflexivity.
  - intros b (v & -> & ->). reflexivity.
  - intros (v & -> & ->). destruct (TOOLKIT_VIEWS config); reflexivity.
Qed.

(** X11: the two-phase Escape of a popup.  Pre-handling an Escape raw
    key-down and then handling it, on a popup in any state (with or without
    a view or a browser), reports a shortcut that is not consumed and makes
    one call, the close: no browser sees the key. *)
Theorem popup_escape_two_phase w source event is_keyboard_shortcut :
  is_popup (host w) ->
  escape_raw_key_down event ->
  bind (PreHandleKeyboardEvent source event is_keyboard_shortcut)
    (fun answer =>
       bind (HandleKeyboardEvent config source event)
         (fun _ => ret answer)) w =
  Some ((false, true), add_call Call_Close w).
Proof.
  intros Hp He. simpl.
  assert (Hpre : PreHandleKeyboardEvent source event is_keyboard_shortcut w =
                 Some ((false, true), w)).
  { unfold PreHandleKeyboardEvent. simpl.
    rewrite <- andb_assoc, (popup_escape_cond _ _ Hp He). reflexivity. }
  rewrite Hpre, (HandleKeyboardEvent_cond config),
    (popup_escape_cond _ _ Hp He).
  reflexivity.
Qed.

(** X12: a non-NULL result of [OpenURLFromTab] means that the disposition
    is on the allow-list, that a browser is bound, and that the result and
    the browser's new state are what that browser's OpenURL gave. *)
Theorem OpenURLFromTab_result_needs_browser w w' source params
    (c : WebContents) :
  OpenURLFromTab source params w = Some (Some c, w') ->
  disposition params ∈ allow_list /\
  exists b,
    view_has_browser (host w) (Some b) /\
    Browser_OpenURL b params (browser_state w) = (Some c, browser_state w') /\
    trace w' = trace w ++ [Call_Browser_OpenURL b params].
Proof.
  unfold OpenURLFromTab, view_browser, call_Browser_OpenURL. intros Hrun.
  destruct (disposition params) eqn:Hd; simpl in Hrun; crunch;
    (split; [apply list_elem_of_In; simpl; tauto|]);
    eexists; (split; [eexists; split; eassumption|]);
    split; try reflexivity; eassumption.
Qed.

(** X13: [OpenURLFromTab] stops exactly when the disposition is on the
    allow-list and the host has no view; in every other case it answers. *)
Theorem OpenURLFromTab_stops_iff w source params :
  OpenURLFromTab source params w = None <->
  disposition params ∈ allow_list /\ view_ (host w) = None.
Proof.
  unfold OpenURLFromTab, view_browser, call_Browser_OpenURL.
  rewrite list_elem_of_In.
  destruct (disposition params); simpl;
    destruct (view_ (host w)) as [v|]; simpl;
    try destruct (browser v); simpl;
    try destruct (Browser_OpenURL _ _ _); simpl;
    split; try discriminate; try tauto;
    intros [Hin Hv]; try discriminate Hv; intuition discriminate.
Qed.

(** ** What requests never do *)


(** X15: where the calls come from.  A request closes the host only if it
    is [HandleKeyboardEvent] with an Escape raw key-down on a popup; it
    inserts a stylesheet only if it is [OnDocumentAvailable] on an infobar,
    and then the infobar stylesheet; it calls a browser only if the view
    has that browser bound. *)
Theorem serve_call_provenance w r w' :
  reachable config infobar_css w ->
  serve config infobar_css r w = Some (tt, w') ->
  (Call_Close ∈ new_calls w w' ->
   exists source event,
     r = Req_HandleKeyboardEvent source event /\
     is_popup (host w) /\ escape_raw_key_down event) /\
  (forall c, c ∈ new_calls w w' -> is_InsertCSS c = true ->
     r = Req_OnDocumentAvailable /\
     extension_host_type (host w) = VIEW_TYPE_EXTENSION_INFOBAR /\
     c = Call_RenderViewHost_InsertCSS "" infobar_css) /\
  (forall c, c ∈ new_calls w w' -> is_browser_call c = true ->
     exists b, view_has_browser (host w) (Some b)).
Proof.
  intros Hreach Hrun.
  pose proof (reachable_observer_inv config infobar_css w Hreach) as Hinv.
  destruct (is_structural r) eqn:Hr.
  - destruct (serve_structural_inv r w w' Hinv Hr Hrun) as (Ht & _).
    rewrite (new_calls_same w w' Ht).
    repeat split; intros; exfalso; eapply not_elem_of_nil; eassumption.
  - destruct (serve_plain_inv r w w' Hr Hrun)
      as (_ & _ & [-> | [(Ht & _ & Hclose) | [(e & Ht & _) |
          [(Ht & _ & -> & Hk) | (b & c0 & Ht & Hc0 & Hb)]]]]).
    + rewrite (new_calls_same w w eq_refl).
      repeat split; intros; exfalso; eapply not_elem_of_nil; eassumption.
    + rewrite (new_calls_app w w' _ Ht). split; [auto|].
      split; intros c Hc%list_elem_of_singleton; subst c; discriminate.
    + rewrite (new_calls_app w w' _ Ht). split; [|split].
      * intros Hc%list_elem_of_singleton. discriminate Hc.
      * intros c Hc%list_elem_of_singleton; subst c; discriminate.
      * intros c Hc%list_elem_of_singleton; subst c; discriminate.
    + rewrite (new_calls_app w w' _ Ht). split; [|split].
      * intros Hc%list_elem_of_singleton. discriminate Hc.
      * intros c Hc%list_elem_of_singleton _. auto.
      * intros c Hc%list_elem_of_singleton; subst c; discriminate.
    + rewrite (new_calls_app w w' _ Ht). split; [|split].
      * intros Hc%list_elem_of_singleton. subst c0. discriminate Hc0.
      * intros c Hc%list_elem_of_singleton Hcss. subst c0.
        destruct c; discriminate.
      * intros c _ _. eauto.
Qed.

(** X16: the keyboard, navigation and document requests leave the host
    object and the registered observers exactly as they were. *)
Theorem plain_requests_keep_host w r w' :
  is_structural r = false ->
  serve config infobar_css r w = Some (tt, w') ->
  host w' = host w /\ observers_ w' = observers_ w.
Proof.
  intros Hr Hrun.
  destruct (serve_plain_inv r w w' Hr Hrun) as (Hh & Ho & _). auto.
Qed.

(** X17: a host whose view has no browser never reaches a browser: under
    any request but [CreateView] the browser is left as it was, no browser
    call is made, and the view still has no browser. *)
Theorem unbound_host_never_calls_browser w r w' :
  reachable config infobar_css w ->
  view_has_browser (host w) None ->
  (forall b, r <> Req_CreateView b) ->
  serve config infobar_css r w = Some (tt, w') ->
  browser_state w' = browser_state w /\
  (forall c, c ∈ new_calls w w' -> is_browser_call c = false) /\
  view_has_browser (host w') None.
Proof.
  intros Hreach (v & Hv & Hb) Hr Hrun.
  pose proof (reachable_observer_inv config infobar_css w Hreach) as Hinv.
  destruct (is_structural r) eqn:Hs.
  - destruct (serve_structural_inv r w w' Hinv Hs Hrun)
      as (Ht & Hbs & _ & _ & Hview).
    rewrite (new_calls_same w w' Ht). split; [exact Hbs|]. split.
    + intros c Hc. exfalso. eapply not_elem_of_nil, Hc.
    + destruct r; try discriminate Hs.
      * destruct (Hr browser0 eq_refl).
      * exists v. rewrite Hview. auto.
      * exists v. rewrite Hview. auto.
  - destruct (serve_plain_inv r w w' Hs Hrun)
      as (Hh & _ & [-> | [(Ht & Hbs & _) | [(e & Ht & Hbs & _) |
          [(Ht & Hbs & _) | (b & c0 & _ & _ & (v' & Hv' & Hb'))]]]]).
    + rewrite (new_calls_same w w eq_refl). split; [reflexivity|]. split.
      * intros c Hc. exfalso. eapply not_elem_of_nil, Hc.
      * exists v. auto.
    + rewrite (new_calls_app w w' _ Ht), Hh. split; [exact Hbs|]. split.
      * intros c Hc%list_elem_of_singleton. subst c. reflexivity.
      * exists v. auto.
    + rewrite (new_calls_app w w' _ Ht), Hh. split; [exact Hbs|]. split.
      * intros c Hc%list_elem_of_singleton. subst c. reflexivity.
      * exists v. auto.
    + rewrite (new_calls_app w w' _ Ht), Hh. split; [exact Hbs|]. split.
      * intros c Hc%list_elem_of_singleton. subst c. reflexivity.
      * exists v. auto.
    + congruence.
Qed.

(** ** The remaining notifications and accessors *)

(** X18: on a host with a view, [RenderViewCreated] first tells the base
    class and then the view; after these it sends the window id to the
    render view host exactly when [GetExtensionWindowController] returns a
    window controller, with the routing id of that render view host and
    the id of that window.  A host whose view has no browser sends
    nothing. *)
Theorem RenderViewCreated_window_id h (s : BS) (render_view_host : RenderViewHost) :
  is_Some (view_ h) ->
  exists l,
    RenderViewCreated render_view_host h s =
      Some ([Call_ExtensionHost_RenderViewCreated render_view_host;
             Call_View_RenderViewCreated] ++ l) /\
    (forall window,
       GetExtensionWindowController h s = Some (Some window) ->
       l = [Call_RenderViewHost_Send render_view_host
              (ExtensionMsg_UpdateBrowserWindowId
                 (RenderViewHost_GetRoutingID render_view_host)
                 (WindowController_GetWindowId window s))]) /\
    (GetExtensionWindowController h s = Some None -> l = []) /\
    (view_has_browser h None -> l = []).
Proof.
  intros [v Hv]. unfold RenderViewCreated, GetExtensionWindowController.
  rewrite Hv.
  destruct (browser v) as [b|] eqn:Hb;
    [destruct (Browser_extension_window_controller b s) as [window|]|];
    eexists; (split; [reflexivity|]); repeat split;
    try congruence; try discriminate.
  all: intros (v' & Hv' & Hb'); congruence.
Qed.

(** X19: a host that has a window controller can navigate: when
    [GetExtensionWindowController] returns one, it is the one of the bound
    browser, and [OpenURLFromTab] with an allow-listed disposition is that
    browser's OpenURL. *)
Theorem window_controller_implies_navigation w source params
    (window : WindowController) :
  GetExtensionWindowController (host w) (browser_state w) =
    Some (Some window) ->
  disposition params ∈ allow_list ->
  exists b,
    view_has_browser (host w) (Some b) /\
    Browser_extension_window_controller b (browser_state w) = Some window /\
    OpenURLFromTab source params w = call_Browser_OpenURL b params w.
Proof.
  unfold GetExtensionWindowController. intros Hw Hin.
  destruct (view_ (host w)) as [v|] eqn:Hv; [|discriminate Hw].
  destruct (browser v) as [b|] eqn:Hb; [|discriminate Hw].
  injection Hw as Hw. exists b.
  split; [exists v; auto|]. split; [exact Hw|].
  apply list_elem_of_In in Hin. unfold OpenURLFromTab, view_browser.
  destruct (disposition params); simpl in Hin;
    try (exfalso; intuition discriminate);
    simpl; rewrite Hv; simpl; rewrite Hb; reflexivity.
Qed.

(** X20: the members that reach through [view_] stop exactly on a host
    without a view.  [OnDidStopLoading] needs the view only in a views or
    mac build, and stops in any build when loading has not stopped. *)
Theorem view_reaching_members_stop_iff w source event
    (new_size : Size) (render_view_host : RenderViewHost) :
  (UnhandledKeyboardEvent config source event w = None <->
   view_ (host w) = None) /\
  (ResizeDueToAutoResize source new_size (host w) = None <->
   view_ (host w) = None) /\
  (GetExtensionWindowController (host w) (browser_state w) = None <->
   view_ (host w) = None) /\
  (RenderViewCreated render_view_host (host w) (browser_state w) = None <->
   view_ (host w) = None) /\
  (IsBackgroundPage (host w) = None <-> view_ (host w) = None) /\
  (OnDidStopLoading config true (host w) = None <->
   view_ (host w) = None /\ TOOLKIT_VIEWS config || OS_MACOSX config = true) /\
  OnDidStopLoading config false (host w) = None.
Proof.
  unfold UnhandledKeyboardEvent, view_browser, emit,
    call_Browser_HandleKeyboardEvent, ResizeDueToAutoResize,
    RenderViewCreated, GetExtensionWindowController, IsBackgroundPage,
    OnDidStopLoading.
  simpl. destruct (view_ (host w)) as [v|]; simpl; split_and!;
    try (split; intros Hn; try reflexivity; try discriminate Hn).
  - destruct (browser v); [|destruct (TOOLKIT_VIEWS config)]; discriminate.
  - destruct (browser v) as [b|];
      [destruct (Browser_extension_window_controller b _)|]; discriminate.
  - destruct (_ || _); discriminate.
  - destruct Hn as [Hn _]. discriminate Hn.
  - destruct (_ || _); [auto | discriminate Hn].
  - destruct Hn as [_ ->]. reflexivity.
Qed.

Lemma DestroyWebContents_unobserved w (x : WebContents) :
  observers_ w = ∅ -> DestroyWebContents x w = Some (tt, w).
Proof.
  intros Ho. unfold DestroyWebContents. simpl.
  rewrite (observers_of_none w x Ho). reflexivity.
Qed.

(** X21: deleting a host, in any state it goes through, leaves no observer
    registered, so that destroying any web contents afterwards, the one it
    was associated with included, reaches nothing. *)
Theorem ExtensionViewHost_delete_unregisters w :
  reachable config infobar_css w ->
  exists w',
    ExtensionViewHost_delete w = Some (tt, w') /\
    observers_ w' = ∅ /\
    trace w' = trace w /\
    (forall x : WebContents, DestroyWebContents x w' = Some (tt, w')).
Proof.
  intros Hreach.
  pose proof (reachable_observer_inv config infobar_css w Hreach) as Hinv.
  unfold ExtensionViewHost_delete, associated_web_contents_observer_reset.
  simpl. unfold observer_inv in Hinv.
  destruct (associated_web_contents_ (host w)) as [c|],
           (associated_web_contents_observer_ (host w)) as [o|];
    try contradiction; simpl; eexists; (split; [reflexivity|]); simpl.
  - assert (Ho : delete o (observers_ w) = ∅)
      by (rewrite Hinv; apply delete_singleton_eq).
    split; [exact Ho|]. split; [reflexivity|].
    intros x. apply DestroyWebContents_unobserved. exact Ho.
  - split; [exact Hinv|]. split; [reflexivity|].
    intros x. apply DestroyWebContents_unobserved. exact Hinv.
Qed.

End Further.

(** * The further properties at work *)

Lemma viewed_world_reachable (k : ViewType) (b : option Browser) :
  is_Some (ExtensionViewHost_new k 1%positive) ->
  reachable views_build demo_css (viewed_world k b).
Proof.
  intros [h Hh].
  apply (reachable_serve views_build demo_css (new_world h 0%nat)
           (viewed_world k b) (Req_CreateView b)).
  - apply (reachable_new views_build demo_css k 1%positive h 0%nat Hh).
  - unfold ExtensionViewHost_new in Hh.
    destruct (_ || _); [|discriminate Hh]. injection Hh as <-. reflexivity.
Defined.

Lemma ExtensionViewHost_new_kinds_witness :
  is_Some (ExtensionViewHost_new VIEW_TYPE_EXTENSION_INFOBAR 1%positive) /\
  ~ is_Some (ExtensionViewHost_new (VIEW_TYPE_OTHER 0) 1%positive) /\
  (forall h,
     ExtensionViewHost_new VIEW_TYPE_EXTENSION_INFOBAR 1%positive = Some h ->
     view_ h = None /\ GetAssociatedWebContents h = None).
Proof.
  pose proof (ExtensionViewHost_new_kinds VIEW_TYPE_EXTENSION_INFOBAR
                1%positive) as [Hok Hfresh].
  pose proof (ExtensionViewHost_new_kinds (VIEW_TYPE_OTHER 0) 1%positive)
    as [Hno _].
  split; [apply Hok; auto|]. split.
  - intros Hsome. apply Hno in Hsome. intuition discriminate.
  - intros h Hh. destruct (Hfresh h Hh) as (_ & _ & Hv & Ha & _). auto.
Defined.

Lemma CreateView_binds_browser_witness :
  has_toolkit views_build = true /\
  exists w',
    CreateView views_build (Some 3%positive)
      (viewed_world VIEW_TYPE_EXTENSION_POPUP None) = Some (tt, w') /\
    view_has_browser (host w') (Some 3%positive) /\
    IsBackgroundPage (host w') = Some false.
Proof.
  split; [reflexivity|].
  destruct (proj2 (CreateView_binds_browser views_build
                     (viewed_world VIEW_TYPE_EXTENSION_POPUP None)
                     (Some 3%positive)) eq_refl)
    as (w' & Hrun & Hv & Hb & _).
  exists w'. auto.
Defined.

Lemma reachable_host_kind_witness :
  reachable views_build demo_css associated_world /\
  (extension_host_type (host associated_world) = VIEW_TYPE_EXTENSION_DIALOG \/
   extension_host_type (host associated_world) = VIEW_TYPE_EXTENSION_INFOBAR \/
   extension_host_type (host associated_world) = VIEW_TYPE_EXTENSION_POPUP).
Proof.
  split; [exact associated_world_reachable|].
  exact (proj1 (reachable_host_kind views_build demo_css associated_world
                  associated_world_reachable)).
Defined.

Lemma view_persists_witness :
  reachable views_build demo_css associated_world /\
  serve views_build demo_css (Req_HandleKeyboardEvent None escape_key_down)
    associated_world = Some (tt, add_call Call_Close associated_world) /\
  IsBackgroundPage (host (add_call Call_Close associated_world)) = Some false.
Proof.
  split; [exact associated_world_reachable|]. split; [reflexivity|].
  exact (proj2 (view_persists views_build demo_css associated_world
                  (Req_HandleKeyboardEvent None escape_key_down)
                  (add_call Call_Close associated_world)
                  associated_world_reachable eq_refl) eq_refl).
Defined.

Lemma viewed_host_never_stops_witness :
  reachable views_build demo_css associated_world /\
  is_Some (view_ (host associated_world)) /\
  exists w',
    serve views_build demo_css (Req_OpenURLFromTab None new_popup_params)
      associated_world = Some (tt, w').
Proof.
  split; [exact associated_world_reachable|].
  assert (Hv : is_Some (view_ (host associated_world)))
    by (eexists; reflexivity).
  split; [exact Hv|].
  exact (viewed_host_never_stops views_build demo_css associated_world
           (Req_OpenURLFromTab None new_popup_params)
           associated_world_reachable Hv).
Defined.

Lemma reachable_observers_witness :
  reachable views_build demo_css associated_world /\
  observers_ associated_world !! 1%positive = Some 5%positive /\
  (size (observers_ associated_world) <= 1)%nat.
Proof.
  split; [exact associated_world_reachable|].
  destruct (reachable_observers views_build demo_css associated_world
              associated_world_reachable) as [Hlookup Hsize].
  split; [|exact Hsize].
  apply Hlookup. split; reflexivity.
Defined.

Lemma SetAssociatedWebContents_last_wins_witness :
  reachable views_build demo_css associated_world /\
  exists w2,
    bind (SetAssociatedWebContents (Some 7%positive))
      (fun _ => SetAssociatedWebContents (Some 9%positive))
      associated_world = Some (tt, w2) /\
    GetAssociatedWebContents (host w2) = Some 9%positive /\
    DestroyWebContents 7%positive w2 = Some (tt, w2).
Proof.
  split; [exact associated_world_reachable|].
  destruct (SetAssociatedWebContents_last_wins views_build demo_css
              associated_world 7%positive 9%positive
              associated_world_reachable)
    as (w2 & Hrun & Hget & _ & Hdestroy).
  exists w2. split; [exact Hrun|]. split; [exact Hget|].
  apply Hdestroy. discriminate.
Defined.

Lemma DestroyWebContents_effect_witness :
  reachable views_build demo_css associated_world /\
  exists w',
    DestroyWebContents 5%positive associated_world = Some (tt, w') /\
    GetAssociatedWebContents (host w') <> Some 5%positive /\
    GetVisibleWebContents (host w') = Some 1%positive.
Proof.
  split; [exact associated_world_reachable|].
  destruct (DestroyWebContents_effect views_build demo_css associated_world
              5%positive associated_world_reachable)
    as (w' & Hrun & Hne & _ & _ & _ & Hvisible & _).
  exists w'. split; [exact Hrun|]. split; [exact Hne|].
  exact (Hvisible eq_refl).
Defined.

Lemma UnhandledKeyboardEvent_dispatch_witness :
  UnhandledKeyboardEvent views_build None ctrl_w_key_down
    (viewed_world VIEW_TYPE_EXTENSION_POPUP (Some 3%positive)) =
    Some (tt, add_call
                (Call_Browser_HandleKeyboardEvent 3%positive None
                   ctrl_w_key_down)
                (set_browser_state 1%nat
                   (viewed_world VIEW_TYPE_EXTENSION_POPUP
                      (Some 3%positive)))) /\
  UnhandledKeyboardEvent views_build None ctrl_w_key_down
    (viewed_world VIEW_TYPE_EXTENSION_DIALOG None) =
    Some (tt, add_call (Call_View_HandleKeyboardEvent ctrl_w_key_down)
                (viewed_world VIEW_TYPE_EXTENSION_DIALOG None)).
Proof.
  split.
  - exact (proj1 (proj2 (UnhandledKeyboardEvent_dispatch views_build
                           (viewed_world VIEW_TYPE_EXTENSION_POPUP
                              (Some 3%positive))
                           None ctrl_w_key_down))
             3%positive (ex_intro _ _ (conj eq_refl eq_refl))).
  - exact (proj2 (proj2 (UnhandledKeyboardEvent_dispatch views_build
                           (viewed_world VIEW_TYPE_EXTENSION_DIALOG None)
                           None ctrl_w_key_down))
             (ex_intro _ _ (conj eq_refl eq_refl))).
Defined.

Lemma popup_escape_two_phase_witness :
  is_popup (host associated_world) /\
  escape_raw_key_down escape_key_down /\
  bind (PreHandleKeyboardEvent None escape_key_down false)
    (fun answer =>
       bind (HandleKeyboardEvent views_build None escape_key_down)
         (fun _ => ret answer)) associated_world =
  Some ((false, true), add_call Call_Close associated_world).
Proof.
  assert (Hp : is_popup (host associated_world)) by reflexivity.
  assert (He : escape_raw_key_down escape_key_down) by (split; reflexivity).
  split; [exact Hp|]. split; [exact He|].
  exact (popup_escape_two_phase views_build associated_world None
           escape_key_down false Hp He).
Defined.

Lemma OpenURLFromTab_result_needs_browser_witness :
  OpenURLFromTab None new_popup_params associated_world =
    Some (Some 40%positive,
          add_call (Call_Browser_OpenURL 3%positive new_popup_params)
            (set_browser_state 1%nat associated_world)) /\
  (disposition new_popup_params ∈ allow_list) /\
  exists b, view_has_browser (host associated_world) (Some b).
Proof.
  assert (Hrun : OpenURLFromTab None new_popup_params associated_world =
                 Some (Some 40%positive,
                       add_call
                         (Call_Browser_OpenURL 3%positive new_popup_params)
                         (set_browser_state 1%nat associated_world)))
    by reflexivity.
  split; [exact Hrun|].
  destruct (OpenURLFromTab_result_needs_browser associated_world _ None
              new_popup_params 40%positive Hrun) as (Hin & b & Hb & _).
  split; [exact Hin|]. exists b. exact Hb.
Defined.


Lemma serve_call_provenance_witness :
  reachable views_build demo_css associated_world /\
  serve views_build demo_css (Req_HandleKeyboardEvent None escape_key_down)
    associated_world = Some (tt, add_call Call_Close associated_world) /\
  exists source event,
    Req_HandleKeyboardEvent None escape_key_down =
      Req_HandleKeyboardEvent source event /\
    is_popup (host associated_world) /\ escape_raw_key_down event.
Proof.
  split; [exact associated_world_reachable|]. split; [reflexivity|].
  apply (proj1 (serve_call_provenance views_build demo_css associated_world
                  (Req_HandleKeyboardEvent None escape_key_down)
                  (add_call Call_Close associated_world)
                  associated_world_reachable eq_refl)).
  apply list_elem_of_In. simpl. auto.
Defined.

Lemma plain_requests_keep_host_witness :
  is_structural (Req_OpenURLFromTab None new_popup_params) = false /\
  serve views_build demo_css (Req_OpenURLFromTab None new_popup_params)
    associated_world =
    Some (tt, add_call (Call_Browser_OpenURL 3%positive new_popup_params)
                (set_browser_state 1%nat associated_world)) /\
  host (add_call (Call_Browser_OpenURL 3%positive new_popup_params)
          (set_browser_state 1%nat associated_world)) =
    host associated_world.
Proof.
  split; [reflexivity|]. split; [reflexivity|].
  exact (proj1 (plain_requests_keep_host views_build demo_css associated_world
                  (Req_OpenURLFromTab None new_popup_params) _
                  eq_refl eq_refl)).
Defined.

Lemma unbound_host_never_calls_browser_witness :
  reachable views_build demo_css
    (viewed_world VIEW_TYPE_EXTENSION_DIALOG None) /\
  view_has_browser (host (viewed_world VIEW_TYPE_EXTENSION_DIALOG None)) None /\
  serve views_build demo_css (Req_OpenURLFromTab None new_popup_params)
    (viewed_world VIEW_TYPE_EXTENSION_DIALOG None) =
    Some (tt, viewed_world VIEW_TYPE_EXTENSION_DIALOG None) /\
  browser_state (viewed_world VIEW_TYPE_EXTENSION_DIALOG None) = 0%nat.
Proof.
  assert (Hreach : reachable views_build demo_css
                     (viewed_world VIEW_TYPE_EXTENSION_DIALOG None)).
  { apply viewed_world_reachable. eexists. reflexivity. }
  assert (Hv : view_has_browser
                 (host (viewed_world VIEW_TYPE_EXTENSION_DIALOG None)) None).
  { eexists. split; reflexivity. }
  split; [exact Hreach|]. split; [exact Hv|]. split; [reflexivity|].
  refine (proj1 (unbound_host_never_calls_browser views_build demo_css
                   (viewed_world VIEW_TYPE_EXTENSION_DIALOG None)
                   (Req_OpenURLFromTab None new_popup_params)
                   (viewed_world VIEW_TYPE_EXTENSION_DIALOG None)
                   Hreach Hv _ eq_refl)).
  intros b. discriminate.
Defined.

Lemma RenderViewCreated_window_id_witness :
  is_Some (view_ (host associated_world)) /\
  RenderViewCreated 9%positive (host associated_world) 0%nat =
    Some [Call_ExtensionHost_RenderViewCreated 9%positive;
          Call_View_RenderViewCreated;
          Call_RenderViewHost_Send 9%positive
            (ExtensionMsg_UpdateBrowserWindowId 9 103)].
Proof.
  assert (Hv : is_Some (view_ (host associated_world)))
    by (eexists; reflexivity).
  split; [exact Hv|].
  destruct (RenderViewCreated_window_id (host associated_world) 0%nat
              9%positive Hv) as (l & Hrun & Hsend & _).
  rewrite Hrun, (Hsend 103%positive eq_refl). reflexivity.
Defined.

Lemma window_controller_implies_navigation_witness :
  GetExtensionWindowController (host associated_world)
    (browser_state associated_world) = Some (Some 103%positive) /\
  (disposition new_popup_params ∈ allow_list) /\
  exists b,
    view_has_browser (host associated_world) (Some b) /\
    OpenURLFromTab None new_popup_params associated_world =
      call_Browser_OpenURL b new_popup_params associated_world.
Proof.
  assert (Hin : disposition new_popup_params ∈ allow_list).
  { apply list_elem_of_In. simpl. tauto. }
  assert (Hw : GetExtensionWindowController (host associated_world)
                 (browser_state associated_world) = Some (Some 103%positive))
    by reflexivity.
  split; [exact Hw|]. split; [exact Hin|].
  destruct (window_controller_implies_navigation associated_world None
              new_popup_params 103%positive Hw Hin)
    as (b & Hb & _ & Hrun).
  exists b. auto.
Defined.

Lemma ExtensionViewHost_delete_unregisters_witness :
  reachable views_build demo_css associated_world /\
  exists w',
    ExtensionViewHost_delete associated_world = Some (tt, w') /\
    observers_ w' = ∅ /\
    DestroyWebContents 5%positive w' = Some (tt, w').
Proof.
  split; [exact associated_world_reachable|].
  destruct (ExtensionViewHost_delete_unregisters views_build demo_css
              associated_world associated_world_reachable)
    as (w' & Hrun & Ho & _ & Hdestroy).
  exists w'. auto.
Defined.
